(** * marshmallow_jsonschema.base

    A shallow embedding of [src/marshmallow_jsonschema/base.py] and the
    properties of it that the specification states.

    How the Python is read:
    - a dict is a finite map with string keys ([gmap string _]); the order of
      its entries is kept only where the code depends on it (the field
      mapping walked by [_get_pytype], and [obj.fields], which is sorted);
    - the values handed in by the caller are [pyval]s: their dicts are
      objects of the store, named by location ([PRef]);
    - what the compiler builds is a [json]: a dict literal it has just
      created is held by value ([JObj]);
    - the two kinds of dict the code updates through a shared reference, the
      nested [metadata] sub-mapping of a field and the
      [_nested_schema_classes] of a [JSONSchema] instance, live in the store;
    - every method of the recursive engine takes the call depth it may still
      use; a run that would need more ends in [DepthExceeded], which is how
      Python ends it too (RecursionError). *)

From stdpp Require Import gmap strings list fin_maps sorting.
From Stdlib Require Import ZArith.

#[local] Set Warnings "-register-all".
#[local] Open Scope string_scope.

(** ** Python values *)

Definition loc := nat.

Inductive pyval :=
| PNone
| PBool (b : bool)
| PInt (n : Z)
| PStr (s : string)
| PList (xs : list pyval)
| PRef (l : loc).

Inductive json :=
| JVal (v : pyval)
| JObj (d : gmap string json).

Abbreviation dict := (gmap string json).
Abbreviation store := (list (gmap string json)).

Definition jstr (s : string) : json := JVal (PStr s).
Definition jbool (b : bool) : json := JVal (PBool b).

(** ** Exceptions and the monad of the engine *)

Inductive exn :=
| UnsupportedValueError (msg : string)
| RegistryError (classname : string)
| AttributeError (attr : string)
| KeyError (key : string)
| ValueError (msg : string)
| NotADict (l : loc).

Inductive outcome (A : Type) :=
| Returns (a : A) (σ : store)
| Raises (e : exn)
| DepthExceeded.
Arguments Returns {A} a σ.
Arguments Raises {A} e.
Arguments DepthExceeded {A}.

Definition M (A : Type) : Type := store → outcome A.

Definition ret {A} (a : A) : M A := λ σ, Returns a σ.
Definition raise {A} (e : exn) : M A := λ _, Raises e.
Definition bind {A B} (m : M A) (k : A → M B) : M B :=
  λ σ, match m σ with
       | Returns a σ' => k a σ'
       | Raises e => Raises e
       | DepthExceeded => DepthExceeded
       end.

Notation "'do' x <- c ; k" := (bind c (λ x, k))
  (at level 10, x name, c at level 100, k at level 200, only parsing).
Notation "'do' ' p <- c ; k" := (bind c (λ y, match y with p => k end))
  (at level 10, p pattern, c at level 100, k at level 200, only parsing).
Notation "c ;; k" := (bind c (λ _, k))
  (at level 100, k at level 200, right associativity, only parsing).

(** A pure step that may raise. *)
Definition lift {A} (r : exn + A) : M A :=
  match r with inl e => raise e | inr a => ret a end.

(** [for x in xs: acc = f(acc, x)] *)
Fixpoint for_each {A B} (f : B → A → M B) (xs : list A) (acc : B) : M B :=
  match xs with
  | [] => ret acc
  | x :: xs => do acc' <- f acc x; for_each f xs acc'
  end.

(** Dict objects of the store. *)
Definition new_dict (d : dict) : M loc := λ σ, Returns (length σ) (σ ++ [d])%list.
Definition get_dict (l : loc) : M dict :=
  λ σ, match σ !! l with Some d => Returns d σ | None => Raises (NotADict l) end.
Definition set_dict (l : loc) (d : dict) : M unit :=
  λ σ, match σ !! l with
       | Some _ => Returns () (<[l := d]> σ)
       | None => Raises (NotADict l)
       end.

(** [d[k] = v] and [d.update(d2)] on dict objects. *)
Definition dict_setitem (l : loc) (k : string) (v : json) : M unit :=
  do d <- get_dict l; set_dict l (<[k := v]> d).
Definition dict_update (l l2 : loc) : M unit :=
  do d2 <- get_dict l2; do d <- get_dict l; set_dict l (d2 ∪ d).

(** ** Classes *)

(** A class is known by its qualified name; [cls_bases] lists its proper
    ancestors. *)
Record pyclass := { cls_id : string; cls_bases : list string }.

Definition same_class (c d : pyclass) : bool := String.eqb (cls_id c) (cls_id d).

Definition issubclass (c d : pyclass) : bool :=
  same_class c d || existsb (String.eqb (cls_id d)) (cls_bases c).

(** ** The schema description handed in by the caller *)

(** [cls.Meta]: the two attributes [_resolve_additional_properties] reads;
    [None] is an attribute that is not set (or set to [None]). *)
Record Meta := {
  additional_properties : option pyval;
  unknown : option pyval }.

Record schema_class := { cls_name : string; cls_Meta : Meta }.

Record validator := {
  validator_class : pyclass;
  validator_attrs : gmap string pyval }.

(** The python types that key [TYPE_MAP]. *)
Inductive pytype :=
| py_dict | py_list | py_time | py_timedelta | py_datetime | py_date | py_UUID
| text_type | binary_type | py_Decimal | py_set | py_tuple | py_float | py_int
| py_bool
| py_other (name : string).

Record schema_of (F : Type) := SchemaObj {
  schema_cls : schema_class;              (* obj.__class__ *)
  schema_fields : list (string * F);      (* obj.fields *)
  TYPE_MAPPING : list (pytype * pyclass)  (* obj.TYPE_MAPPING *) }.
Arguments SchemaObj {F}.
Arguments schema_cls {F}.
Arguments schema_fields {F}.
Arguments TYPE_MAPPING {F}.

Inductive nested_of (F : Type) :=
| NestedName (classname : string)
| NestedClass (c : schema_class)
| NestedInstance (o : schema_of F).
Arguments NestedName {F}.
Arguments NestedClass {F}.
Arguments NestedInstance {F}.

Inductive field := Field {
  field_class : pyclass;                       (* field.__class__ *)
  field_name : string;                         (* field.name *)
  field_attribute : option string;             (* field.attribute *)
  field_required : bool;
  field_dump_only : bool;
  field_default : option pyval;                (* None: missing *)
  field_metadata : gmap string pyval;
  field_validators : list validator;
  field_type_mapping_method : option json;     (* field._jsonschema_type_mapping() *)
  field_inner : option field;                  (* list_inner(field) *)
  field_nested : option (nested_of field);
  field_only : option (list string);
  field_exclude : list string;
  field_many : bool }.

Abbreviation schema := (schema_of field).
Abbreviation nested_target := (nested_of field).

(** What the engine asks of marshmallow: the class registry and the
    construction of a schema instance from its class. *)
Record marshmallow := {
  get_class : string → option schema_class;
  instantiate : schema_class → option (list string) → list string → M schema }.

(** ** Module constants *)

Definition TYPE_MAP (t : pytype) : option (list (string * json)) :=
  match t with
  | py_dict => Some [("type", jstr "object")]
  | py_list => Some [("type", jstr "array")]
  | py_time => Some [("type", jstr "string"); ("format", jstr "time")]
  | py_timedelta => Some [("type", jstr "string")]
  | py_datetime => Some [("type", jstr "string"); ("format", jstr "date-time")]
  | py_date => Some [("type", jstr "string"); ("format", jstr "date")]
  | py_UUID => Some [("type", jstr "string"); ("format", jstr "uuid")]
  | text_type => Some [("type", jstr "string")]
  | binary_type => Some [("type", jstr "string")]
  | py_Decimal => Some [("type", jstr "number"); ("format", jstr "decimal")]
  | py_set => Some [("type", jstr "array")]
  | py_tuple => Some [("type", jstr "array")]
  | py_float => Some [("type", jstr "number"); ("format", jstr "float")]
  | py_int => Some [("type", jstr "number"); ("format", jstr "integer")]
  | py_bool => Some [("type", jstr "boolean")]
  | py_other _ => None
  end.

Definition marshmallow_class (name : string) (bases : list string) : pyclass :=
  {| cls_id := name; cls_bases := bases |}.

Definition validate_Length := marshmallow_class "validate.Length" ["validate.Validator"].
Definition validate_OneOf := marshmallow_class "validate.OneOf" ["validate.Validator"].
Definition validate_Range := marshmallow_class "validate.Range" ["validate.Validator"].

Definition fields_Field := marshmallow_class "fields.Field" [].
Definition fields_String := marshmallow_class "fields.String" ["fields.Field"].
Definition fields_Email := marshmallow_class "fields.Email" ["fields.String"; "fields.Field"].
Definition fields_Url := marshmallow_class "fields.Url" ["fields.String"; "fields.Field"].
Definition fields_Dict := marshmallow_class "fields.Dict" ["fields.Field"].
Definition fields_List := marshmallow_class "fields.List" ["fields.Field"].
Definition fields_DateTime := marshmallow_class "fields.DateTime" ["fields.Field"].
Definition fields_Nested := marshmallow_class "fields.Nested" ["fields.Field"].
Definition fields_Number := marshmallow_class "fields.Number" ["fields.Field"].

(** Modelled from the spec: the three unknown-field policies of
    [compat] ([RAISE], [EXCLUDE], [INCLUDE]), a module that is not among the
    sources; the values are the ones the specification names. *)
Definition RAISE := "raise".
Definition EXCLUDE := "exclude".
Definition INCLUDE := "include".

(** ** _resolve_additional_properties *)

(** [v == b] for a boolean [b]: a bool equals itself, and the integers 1 and
    0 equal [True] and [False]. *)
Definition py_eq_bool (v : pyval) (b : bool) : bool :=
  match v with
  | PBool b' => Bool.eqb b' b
  | PInt n => if b then (n =? 1)%Z else (n =? 0)%Z
  | _ => false
  end.

Definition py_eq_str (v : pyval) (s : string) : bool :=
  match v with PStr s' => String.eqb s' s | _ => false end.

Definition _resolve_additional_properties (cls : schema_class) : exn + pyval :=
  let meta := cls_Meta cls in
  match additional_properties meta with
  | Some ap =>
      if py_eq_bool ap true || py_eq_bool ap false then inr ap
      else inl (UnsupportedValueError
                  "`additional_properties` must be either True or False")
  | None =>
      match unknown meta with
      | None => inr (PBool false)
      | Some u =>
          if py_eq_str u RAISE || py_eq_str u EXCLUDE then inr (PBool false)
          else if py_eq_str u INCLUDE then inr (PBool true)
          else inl (UnsupportedValueError "Unknown value %s for `unknown`")
      end
  end.

(** ** The engine *)

(** [sorted(obj.fields.items())]: the keys of a dict are distinct, so the
    pairs are ordered by their key alone. *)
Definition key_le (x y : string * field) : Prop := String.leb x.1 y.1 = true.

#[global] Instance key_le_dec : RelDecision key_le.
Proof. intros x y. unfold key_le. apply _. Defined.

Definition sorted_items (l : list (string * field)) : list (string * field) :=
  merge_sort key_le l.

(** A [JSONSchema] instance: its registry of definitions (a dict object) and
    its mode. *)
Record JSONSchema := {
  _nested_schema_classes : loc;
  nested : bool }.

(** [JSONSchema.__init__] *)
Definition JSONSchema_init (nested_kw : bool) : M JSONSchema :=
  do r <- new_dict ∅;
  ret {| _nested_schema_classes := r; nested := nested_kw |}.

(** The values of the mapping of [_get_default_mapping]: a python type, or
    the name of a method of [JSONSchema]. *)
Inductive target :=
| to_type (t : pytype)
| to_method (name : string).

(** [mapping[c] = t] on a dict keyed by classes: an existing key keeps its
    place. *)
Fixpoint mapping_set (m : list (pyclass * target)) (c : pyclass) (t : target)
  : list (pyclass * target) :=
  match m with
  | [] => [(c, t)]
  | (c', t') :: m' =>
      if same_class c' c then (c', t) :: m' else (c', t') :: mapping_set m' c t
  end.

Definition _get_default_mapping (obj : schema) : list (pyclass * target) :=
  let mapping :=
    foldl (λ m '(k, v), mapping_set m v (to_type k)) [] (TYPE_MAPPING obj) in
  foldl (λ m '(c, t), mapping_set m c t) mapping
    [ (fields_Email, to_type text_type);
      (fields_Dict, to_type py_dict);
      (fields_Url, to_type text_type);
      (fields_List, to_type py_list);
      (fields_DateTime, to_type py_datetime);
      (fields_Nested, to_method "_from_nested_schema");
      (fields_Number, to_type py_Decimal) ].

Fixpoint _get_pytype (field : field) (mapping : list (pyclass * target))
  : exn + target :=
  match mapping with
  | [] => inl (UnsupportedValueError "unsupported field type %s")
  | (map_class, pytype) :: mapping' =>
      if issubclass (field_class field) map_class then inr pytype
      else _get_pytype field mapping'
  end.

(** [get_required]: [None] is marshmallow's [missing]. *)
Definition get_required (obj : schema) : option (list string) :=
  let required :=
    foldl (λ required '(_, field),
             if field_required field then (required ++ [field_name field])%list
             else required)
      [] (sorted_items (schema_fields obj)) in
  match required with [] => None | _ => Some required end.

(** [field.attribute or field.name] *)
Definition attribute_or_name (field : field) : string :=
  match field_attribute field with
  | Some a => if String.eqb a "" then field_name field else a
  | None => field_name field
  end.

(** The two lines "doubled up to maintain backwards compatibility":
    [metadata = field.metadata.get("metadata", {})] followed by
    [metadata.update(field.metadata)]. When the key is there, [metadata] is
    the dict object stored under it, and it is that object that is updated. *)
Definition doubled_metadata (field : field) : M dict :=
  let top : dict := JVal <$> field_metadata field in
  match field_metadata field !! "metadata" with
  | None => ret top
  | Some (PRef l) =>
      do d <- get_dict l;
      set_dict l (top ∪ d);;
      ret (top ∪ d)
  | Some _ => raise (AttributeError "update")
  end.

(** [for md_key, md_val in metadata.items(): ...] *)
Definition copy_metadata (metadata : dict) (json_schema : dict) : dict :=
  map_fold (λ md_key md_val js,
              if String.eqb md_key "metadata" then js
              else <[md_key := md_val]> js)
    json_schema metadata.

(** What marshmallow's [Schema.dump] makes of the three declared fields of
    [JSONSchema]: a value that is [missing] leaves its key out. *)
Definition serialize (properties : dict) (required : option (list string)) : dict :=
  let data : dict :=
    <["type" := jstr "object"]> (<["properties" := JObj properties]> ∅) in
  match required with
  | Some names => <["required" := JVal (PList (PStr <$> names))]> data
  | None => data
  end.

(** [JSONSchema.wrap]; [obj] is [self.obj], which [dump] has just set. *)
Definition wrap (self : JSONSchema) (obj : schema) (data : dict) : M dict :=
  if nested self then ret data
  else
    let cls := schema_cls obj in
    let name := cls_name cls in
    do ap <- lift (_resolve_additional_properties cls);
    let data := <["additionalProperties" := JVal ap]> data in
    dict_setitem (_nested_schema_classes self) name (JObj data);;
    ret (<["$ref" := jstr ("#/definitions/" ++ name)]>
         (<["definitions" := JVal (PRef (_nested_schema_classes self))]>
          (<["$schema" := jstr "http://json-schema.org/draft-07/schema#"]> ∅))).

(** A handler of [FIELD_VALIDATORS]: called as
    [handler(schema, field, validator, obj)]. The module that defines the
    three handlers is not among the sources, so the engine takes them as
    they come. *)
Definition handler : Type := json → field → validator → schema → M json.

Record handlers := {
  handle_length : handler;
  handle_one_of : handler;
  handle_range : handler }.

Section Engine.
Variable mm : marshmallow.
Variable hs : handlers.

Definition FIELD_VALIDATORS : list (pyclass * handler) :=
  [ (validate_Length, handle_length hs);
    (validate_OneOf, handle_one_of hs);
    (validate_Range, handle_range hs) ].

(** [FIELD_VALIDATORS.get(c)]: a dict lookup, by the class itself. *)
Fixpoint lookup_class {A} (table : list (pyclass * A)) (c : pyclass) : option A :=
  match table with
  | [] => None
  | (c', a) :: table' => if same_class c' c then Some a else lookup_class table' c
  end.

(** The body of the loop over [field.validators]. *)
Definition apply_validator (obj : schema) (field : field)
    (schema : json) (validator : validator) : M json :=
  match lookup_class FIELD_VALIDATORS (validator_class validator) with
  | Some handle => handle schema field validator obj
  | None => ret schema
  end.

(** The target of a nested field, as the first lines of
    [_from_nested_schema] find it: its name, its class and an instance. *)
Definition resolve_nested (field : field) : M (string * schema_class * schema) :=
  let of_class (nested : schema_class) :=
    do nested_instance <-
      instantiate mm nested (field_only field) (field_exclude field);
    ret (cls_name nested, nested, nested_instance) in
  match field_nested field with
  | None => raise (AttributeError "nested")
  | Some (NestedName classname) =>
      match get_class mm classname with
      | Some nested => of_class nested
      | None => raise (RegistryError classname)
      end
  | Some (NestedClass nested) => of_class nested
  | Some (NestedInstance nested) =>
      ret (cls_name (schema_cls nested), schema_cls nested, nested)
  end.

Fixpoint dump (depth : nat) (self : JSONSchema) (obj : schema) {struct depth}
  : M dict :=
  match depth with
  | 0 => λ _, DepthExceeded
  | S depth =>
      do properties <- get_properties depth self obj;
      wrap self obj (serialize properties (get_required obj))
  end

with get_properties (depth : nat) (self : JSONSchema) (obj : schema)
  {struct depth} : M dict :=
  match depth with
  | 0 => λ _, DepthExceeded
  | S depth =>
      for_each
        (λ properties '(_, field),
           do schema <- _get_schema_for_field depth self obj field;
           ret (<[field_name field := schema]> properties))
        (sorted_items (schema_fields obj)) ∅
  end

with _from_python_type (depth : nat) (self : JSONSchema) (obj : schema)
  (field : field) (pytype : pytype) {struct depth} : M json :=
  match depth with
  | 0 => λ _, DepthExceeded
  | S depth =>
      let json_schema : dict := {[ "title" := jstr (attribute_or_name field) ]} in
      do table <- lift (match TYPE_MAP pytype with
                        | Some t => inr t
                        | None => inl (KeyError "TYPE_MAP")
                        end);
      let json_schema := foldl (λ js '(key, val), <[key := val]> js) json_schema table in
      let json_schema :=
        if field_dump_only field then <["readonly" := jbool true]> json_schema
        else json_schema in
      let json_schema :=
        match field_default field with
        | Some d => <["default" := JVal d]> json_schema
        | None => json_schema
        end in
      do metadata <- doubled_metadata field;
      let json_schema := copy_metadata metadata json_schema in
      if issubclass (field_class field) fields_List then
        do inner <- lift (match field_inner field with
                          | Some inner => inr inner
                          | None => inl (AttributeError "inner")
                          end);
        do items <- _get_schema_for_field depth self obj inner;
        ret (JObj (<["items" := items]> json_schema))
      else ret (JObj json_schema)
  end

with _get_schema_for_field (depth : nat) (self : JSONSchema) (obj : schema)
  (field : field) {struct depth} : M json :=
  match depth with
  | 0 => λ _, DepthExceeded
  | S depth =>
      let mapping := _get_default_mapping obj in
      do schema <-
        match field_type_mapping_method field with
        | Some custom => ret custom
        | None =>
            match field_metadata field !! "_jsonschema_type_mapping" with
            | Some custom => ret (JVal custom)
            | None =>
                do pytype <- lift (_get_pytype field mapping);
                match pytype with
                | to_method name =>
                    if String.eqb name "_from_nested_schema"
                    then _from_nested_schema depth self obj field
                    else raise (AttributeError name)
                | to_type pytype => _from_python_type depth self obj field pytype
                end
            end
        end;
      for_each (apply_validator obj field) (field_validators field) schema
  end

with _from_nested_schema (depth : nat) (self : JSONSchema) (obj : schema)
  (field : field) {struct depth} : M json :=
  match depth with
  | 0 => λ _, DepthExceeded
  | S depth =>
      do '(name, nested_cls, nested_instance) <- resolve_nested field;
      let outer_name := cls_name (schema_cls obj) in
      do seen <- get_dict (_nested_schema_classes self);
      (match seen !! name with
       | None =>
           if negb (String.eqb name outer_name) then
             do wrapped_nested <- JSONSchema_init true;
             do wrapped_dumped <- dump depth wrapped_nested nested_instance;
             do ap <- lift (_resolve_additional_properties nested_cls);
             let wrapped_dumped := <["additionalProperties" := JVal ap]> wrapped_dumped in
             dict_setitem (_nested_schema_classes self) name (JObj wrapped_dumped);;
             dict_update (_nested_schema_classes self)
               (_nested_schema_classes wrapped_nested)
           else ret ()
       | Some _ => ret ()
       end);;
      let schema : dict :=
        <["$ref" := jstr ("#/definitions/" ++ name)]> {[ "type" := jstr "object" ]} in
      do metadata <- doubled_metadata field;
      let schema := copy_metadata metadata schema in
      if field_many field then
        ret (JObj (<["items" := JObj schema]>
                   {[ "type" := if field_required field then jstr "array"
                                else JVal (PList [PStr "array"; PStr "null"]) ]}))
      else ret (JObj schema)
  end.

End Engine.

(** ** The constraint handlers *)

(** Modelled from the spec: [validation.handle_length],
    [validation.handle_one_of] and [validation.handle_range], whose module is
    not among the sources. Each reads the [type] already in the fragment and
    returns the fragment with its keywords added; the constraint is read
    from the attributes of the validator. *)
Module validation.

Definition fragment_dict (schema : json) : M dict :=
  match schema with
  | JObj d => ret d
  | JVal (PRef l) => get_dict l
  | JVal _ => raise (ValueError "fragment is not a mapping")
  end.

Definition set_attr (key attr : string) (validator : validator) (d : dict) : dict :=
  match validator_attrs validator !! attr with
  | Some v => <[key := JVal v]> d
  | None => d
  end.

Definition length_keys (d : dict) (validator : validator) (min_key max_key : string) : dict :=
  match validator_attrs validator !! "equal" with
  | Some n => <[max_key := JVal n]> (<[min_key := JVal n]> d)
  | None => set_attr max_key "max" validator (set_attr min_key "min" validator d)
  end.

Definition handle_length : handler := λ schema field validator obj,
  do d <- fragment_dict schema;
  match d !! "type" with
  | Some (JVal (PStr "string")) =>
      ret (JObj (length_keys d validator "minLength" "maxLength"))
  | Some (JVal (PStr "array")) =>
      ret (JObj (length_keys d validator "minItems" "maxItems"))
  | _ => ret schema
  end.

Definition handle_one_of : handler := λ schema field validator obj,
  do d <- fragment_dict schema;
  match validator_attrs validator !! "choices" with
  | Some choices => ret (JObj (<["enum" := JVal choices]> d))
  | None => raise (AttributeError "choices")
  end.

Definition exclusive (key attr : string) (validator : validator) (d : dict) : dict :=
  match validator_attrs validator !! attr with
  | Some (PBool true) => <[key := jbool true]> d
  | _ => d
  end.

Definition handle_range : handler := λ schema field validator obj,
  do d <- fragment_dict schema;
  let d := set_attr "minimum" "min" validator d in
  let d := exclusive "exclusiveMinimum" "min_exclusive" validator d in
  let d := set_attr "maximum" "max" validator d in
  let d := exclusive "exclusiveMaximum" "max_exclusive" validator d in
  ret (JObj d).

End validation.

Definition validation_handlers : handlers :=
  {| handle_length := validation.handle_length;
     handle_one_of := validation.handle_one_of;
     handle_range := validation.handle_range |}.

(** ** A small marshmallow for the examples *)

(** marshmallow's own [Schema.TYPE_MAPPING] and the field classes it names. *)
Definition fields_Float := marshmallow_class "fields.Float" ["fields.Number"; "fields.Field"].
Definition fields_Integer := marshmallow_class "fields.Integer" ["fields.Number"; "fields.Field"].
Definition fields_Decimal := marshmallow_class "fields.Decimal" ["fields.Number"; "fields.Field"].
Definition fields_Boolean := marshmallow_class "fields.Boolean" ["fields.Field"].
Definition fields_Raw := marshmallow_class "fields.Raw" ["fields.Field"].
Definition fields_UUID := marshmallow_class "fields.UUID" ["fields.String"; "fields.Field"].
Definition fields_Time := marshmallow_class "fields.Time" ["fields.Field"].
Definition fields_Date := marshmallow_class "fields.Date" ["fields.DateTime"; "fields.Field"].
Definition fields_TimeDelta := marshmallow_class "fields.TimeDelta" ["fields.Field"].

Definition Schema_TYPE_MAPPING : list (pytype * pyclass) :=
  [ (text_type, fields_String); (binary_type, fields_String);
    (py_datetime, fields_DateTime); (py_float, fields_Float);
    (py_bool, fields_Boolean); (py_tuple, fields_Raw); (py_list, fields_Raw);
    (py_set, fields_Raw); (py_int, fields_Integer); (py_UUID, fields_UUID);
    (py_time, fields_Time); (py_date, fields_Date);
    (py_timedelta, fields_TimeDelta); (py_Decimal, fields_Decimal) ].

(** A field with every option at its default. *)
Definition a_field (c : pyclass) (name : string) : field :=
  Field c name None false false None ∅ [] None None None None [] false.

Definition set_required (b : bool) (f : field) : field :=
  let 'Field c n a _ d df md vs tm i ne o e m := f in
  Field c n a b d df md vs tm i ne o e m.
Definition set_dump_only (b : bool) (f : field) : field :=
  let 'Field c n a r _ df md vs tm i ne o e m := f in
  Field c n a r b df md vs tm i ne o e m.
Definition set_default (v : pyval) (f : field) : field :=
  let 'Field c n a r d _ md vs tm i ne o e m := f in
  Field c n a r d (Some v) md vs tm i ne o e m.
Definition set_metadata (md : gmap string pyval) (f : field) : field :=
  let 'Field c n a r d df _ vs tm i ne o e m := f in
  Field c n a r d df md vs tm i ne o e m.
Definition set_validators (vs : list validator) (f : field) : field :=
  let 'Field c n a r d df md _ tm i ne o e m := f in
  Field c n a r d df md vs tm i ne o e m.
Definition set_type_mapping_method (j : json) (f : field) : field :=
  let 'Field c n a r d df md vs _ i ne o e m := f in
  Field c n a r d df md vs (Some j) i ne o e m.

Definition String_field (name : string) : field := a_field fields_String name.
Definition Integer_field (name : string) : field := a_field fields_Integer name.
Definition Nested_field (name : string) (target : nested_target) (many : bool) : field :=
  Field fields_Nested name None false false None ∅ [] None None (Some target) None [] many.

(** A schema class as it is declared: its name, its Meta and its fields. *)
Record declaration := {
  declared_class : schema_class;
  declared_fields : list (string * field) }.

Definition plain_class (name : string) : schema_class :=
  {| cls_name := name;
     cls_Meta := {| additional_properties := None; unknown := None |} |}.

Definition declare (name : string) (fs : list field) : declaration :=
  {| declared_class := plain_class name;
     declared_fields := (λ f, (field_name f, f)) <$> fs |}.

Definition kept (only : option (list string)) (exclude : list string)
    (item : string * field) : bool :=
  match only with
  | Some names => existsb (String.eqb item.1) names
  | None => true
  end && negb (existsb (String.eqb item.1) exclude).

(** The instance [cls(only=only, exclude=exclude)] of a declared class. The
    declared fields of the examples carry no nested metadata sub-mapping, so
    the instance can share them with the class. *)
Definition instance_of (d : declaration) (only : option (list string))
    (exclude : list string) : schema :=
  SchemaObj (declared_class d)
    (List.filter (kept only exclude) (declared_fields d))
    Schema_TYPE_MAPPING.

Definition find_class (ds : list declaration) (name : string) : option declaration :=
  List.find (λ d, String.eqb (cls_name (declared_class d)) name) ds.

Definition registry (ds : list declaration) : marshmallow :=
  {| get_class name := declared_class <$> find_class ds name;
     instantiate cls only exclude :=
       match find_class ds (cls_name cls) with
       | Some d => ret (instance_of d only exclude)
       | None => raise (RegistryError (cls_name cls))
       end |}.

(** [JSONSchema().dump(obj)] from a given store. *)
Definition compile (mm : marshmallow) (hs : handlers) (depth : nat) (obj : schema)
  : M dict :=
  do self <- JSONSchema_init false; dump mm hs depth self obj.

(** *** A tree node that nests itself *)
Definition Node : declaration :=
  declare "Node"
    [ Nested_field "children" (NestedName "Node") true;
      set_required true (Integer_field "value") ].

(** *** Two schemas that nest each other *)
Definition Author : declaration :=
  declare "Author" [ Nested_field "books" (NestedName "Book") true ].
Definition Book : declaration :=
  declare "Book" [ Nested_field "author" (NestedName "Author") false ].

(** *** The example of the specification *)
Definition Pet : declaration :=
  declare "Pet" [ set_required true (String_field "id") ].
Definition Person : declaration :=
  declare "Person"
    [ set_required true (String_field "name");
      set_default (PInt 0) (Integer_field "age");
      Nested_field "pets" (NestedName "Pet") true ].

Definition world : marshmallow := registry [Node; Author; Book; Pet; Person].

(** ** Notions used in the statements *)

(** The names [get_required] collects: those of the required fields, in the
    order of the sorted items. *)
Definition required_names (obj : schema) : list string :=
  (λ item, field_name item.2)
    <$> filter (λ item, field_required item.2 = true) (sorted_items (schema_fields obj)).

(** Where the fragment of the schema itself ends up after [dump]: a nested
    compiler returns it; a root compiler files it in its registry, under the
    name of the schema. *)
Definition compiled_as (self : JSONSchema) (obj : schema) (out : dict) (σ' : store)
    (fragment : dict) : Prop :=
  if nested self then out = fragment
  else ∃ definitions : dict,
      σ' !! _nested_schema_classes self = Some definitions ∧
      definitions !! cls_name (schema_cls obj) = Some (JObj fragment).

(** The classes that key [FIELD_VALIDATORS]. *)
Definition recognized (c : pyclass) : bool :=
  existsb (same_class c) [validate_Length; validate_OneOf; validate_Range].

(** The validators that reach a handler, in the order of the field. *)
Definition handled (vs : list validator) : list validator :=
  List.filter (λ v, recognized (validator_class v)) vs.

(** ** More examples *)

(** A validator of marshmallow that [FIELD_VALIDATORS] does not know, and a
    subclass of [validate.Length]. *)
Definition validate_Regexp := marshmallow_class "validate.Regexp" ["validate.Validator"].
Definition MyLength := marshmallow_class "MyLength" ["validate.Length"; "validate.Validator"].

Definition a_validator (c : pyclass) (attrs : list (string * pyval)) : validator :=
  {| validator_class := c; validator_attrs := list_to_map attrs |}.


(** ** The fragment of a typed field, as the specification words it *)

(** The nested [metadata] sub-mapping of a field, as the store has it: an
    empty one when the field has no such key. *)
Definition nested_metadata (field : field) (σ : store) : option dict :=
  match field_metadata field !! "metadata" with
  | None => Some ∅
  | Some (PRef l) => σ !! l
  | Some _ => None
  end.


Definition at_key (key k : string) (v : option json) : option json :=
  if String.eqb key k then v else None.

(** The value of [key] in the fragment of a field resolved through the type
    table; of the sources that give the key, the first one listed wins:
    the items of a list, the effective metadata (but its key [metadata]),
    the default, the output-only flag, the table entry, the title. *)
Definition post_processed (field : field) (table : list (string * json))
    (metadata : dict) (items : option json) (key : string) : option json :=
  at_key key "items" items
  ∪ (if String.eqb key "metadata" then None else metadata !! key)
  ∪ at_key key "default" (JVal <$> field_default field)
  ∪ at_key key "readonly" (if field_dump_only field then Some (jbool true) else None)
  ∪ (list_to_map table : dict) !! key
  ∪ at_key key "title" (Some (jstr (attribute_or_name field))).

(** The reference to a definition, before the metadata of the field are
    copied into it. *)
Definition reference_to (name : string) : dict :=
  <["$ref" := jstr ("#/definitions/" ++ name)]> {[ "type" := jstr "object" ]}.

(** The fragment of [_from_python_type] before the metadata are copied into
    it: the title, the entry of the table, the output-only flag and the
    default, set in this order. *)
Definition typed_fragment (field : field) (table : list (string * json)) : dict :=
  let json_schema : dict := {[ "title" := jstr (attribute_or_name field) ]} in
  let json_schema := foldl (λ js '(key, val), <[key := val]> js) json_schema table in
  let json_schema :=
    if field_dump_only field then <["readonly" := jbool true]> json_schema
    else json_schema in
  match field_default field with
  | Some d => <["default" := JVal d]> json_schema
  | None => json_schema
  end.

Definition with_items (items : option json) (json_schema : dict) : dict :=
  match items with
  | Some i => <["items" := i]> json_schema
  | None => json_schema
  end.

(** *** Fields with metadata and overrides *)

(** An output-only field with a default and a description, which brings its
    own fragment. *)
Definition code_field : field :=
  set_metadata {[ "description" := PStr "a code" ]}
    (set_default (PStr "none")
       (set_dump_only true
          (set_type_mapping_method (JObj {[ "type" := jstr "string" ]})
             (String_field "code")))).



(** An output-only integer with a default, a description at top level, and
    a nested [metadata] sub-mapping, which is the dict object 1 of the store
    below. *)
Definition count_field : field :=
  set_metadata {[ "description" := PStr "a count"; "metadata" := PRef 1 ]}
    (set_default (PInt 0) (set_dump_only true (Integer_field "count"))).

Definition count_store : store :=
  [ ∅; {[ "description" := jstr "hidden"; "minimum" := JVal (PInt 0) ]} ].

Definition root0 : JSONSchema := {| _nested_schema_classes := 0; nested := false |}.

(** ** Stores that only grow *)

(** From [σ] to [σ'] every dict object is still there and has kept its
    keys. *)
Definition keeps_keys (σ σ' : store) : Prop :=
  ∀ l (d : dict), σ !! l = Some d → ∃ d' : dict, σ' !! l = Some d' ∧ dom d ⊆ dom d'.

(** A computation that takes no key away from a dict object. *)
Definition careful {A} (m : M A) : Prop :=
  ∀ σ a σ', m σ = Returns a σ' → keeps_keys σ σ'.

Definition careful_handlers (hs : handlers) : Prop :=
  ∀ schema field validator obj,
    careful (handle_length hs schema field validator obj) ∧
    careful (handle_one_of hs schema field validator obj) ∧
    careful (handle_range hs schema field validator obj).

Definition careful_marshmallow (mm : marshmallow) : Prop :=
  ∀ cls only exclude, careful (instantiate mm cls only exclude).

(** *** One compiler used twice, and a schema with nested metadata *)

Definition Counter : schema :=
  SchemaObj (plain_class "Counter") [("count", count_field)] Schema_TYPE_MAPPING.

(** ** More notions for the statements *)

(** The fragment of a nested field, once its target is filed or found. *)
Definition reference_fragment (field : field) (name : string) : M json :=
  do metadata <- doubled_metadata field;
  let reference := copy_metadata metadata (reference_to name) in
  if field_many field then
    ret (JObj (<["items" := JObj reference]>
               {[ "type" := if field_required field then jstr "array"
                            else JVal (PList [PStr "array"; PStr "null"]) ]}))
  else ret (JObj reference).

(** A call that gives no result: it raises, or exceeds the depth. *)
Definition returns_nothing {A} (o : outcome A) : Prop :=
  match o with
  | Returns _ _ => False
  | Raises _ | DepthExceeded => True
  end.

(** * Properties *)

(** ** The monad *)

Lemma bind_Returns {A B} (m : M A) (k : A → M B) σ b σ' :
  bind m k σ = Returns b σ' →
  ∃ a σ1, m σ = Returns a σ1 ∧ k a σ1 = Returns b σ'.
Proof.
  unfold bind. destruct (m σ) as [a σ1| |]; [eauto | done | done].
Qed.

Lemma bind_DepthExceeded {A B} (m : M A) (k : A → M B) σ :
  m σ = DepthExceeded → bind m k σ = DepthExceeded.
Proof. unfold bind. by intros ->. Qed.

Lemma bind_step {A B} (m : M A) (k : A → M B) σ a σ1 :
  m σ = Returns a σ1 → bind m k σ = k a σ1.
Proof. unfold bind. by intros ->. Qed.

Lemma ret_Returns {A} (a b : A) σ σ' :
  ret a σ = Returns b σ' → b = a ∧ σ' = σ.
Proof. unfold ret. by intros [= -> ->]. Qed.

Lemma lift_Returns {A} (r : exn + A) σ a σ' :
  lift r σ = Returns a σ' → r = inr a ∧ σ' = σ.
Proof. destruct r; cbn; [done|]. by intros [= -> ->]. Qed.

Lemma get_dict_Returns l σ d σ' :
  get_dict l σ = Returns d σ' → σ !! l = Some d ∧ σ' = σ.
Proof.
  unfold get_dict. destruct (σ !! l); [|done]. by intros [= -> ->].
Qed.

Lemma set_dict_Returns l d σ u σ' :
  set_dict l d σ = Returns u σ' → is_Some (σ !! l) ∧ σ' = <[l := d]> σ.
Proof.
  unfold set_dict. destruct (σ !! l) eqn:E; [|done]. intros [= _ <-]. eauto.
Qed.

Lemma new_dict_Returns d σ l σ' :
  new_dict d σ = Returns l σ' → l = length σ ∧ σ' = (σ ++ [d])%list.
Proof. unfold new_dict. by intros [= <- <-]. Qed.

Lemma dict_setitem_Returns l k v σ u σ' :
  dict_setitem l k v σ = Returns u σ' →
  ∃ d, σ !! l = Some d ∧ σ' = <[l := <[k := v]> d]> σ.
Proof.
  unfold dict_setitem. intros H.
  apply bind_Returns in H as (d & σ1 & [Hd ->]%get_dict_Returns & H).
  apply set_dict_Returns in H as [_ ->]. eauto.
Qed.

Lemma dict_update_Returns l l2 σ u σ' :
  dict_update l l2 σ = Returns u σ' →
  ∃ d d2, σ !! l = Some d ∧ σ !! l2 = Some d2 ∧ σ' = <[l := d2 ∪ d]> σ.
Proof.
  unfold dict_update. intros H.
  apply bind_Returns in H as (d2 & σ1 & [Hd2 ->]%get_dict_Returns & H).
  apply bind_Returns in H as (d & σ1 & [Hd ->]%get_dict_Returns & H).
  apply set_dict_Returns in H as [_ ->]. eauto.
Qed.

(** Taking a successful run apart, step by step. *)
Ltac step H :=
  first
    [ apply bind_Returns in H as (? & ? & ? & H)
    | apply ret_Returns in H as [? ?]
    | apply lift_Returns in H as [? ?]
    | apply get_dict_Returns in H as [? ?]
    | apply new_dict_Returns in H as [? ?] ].

(** A loop over a list is the loop over its first part followed by the loop
    over the rest. *)
Lemma for_each_app {A B} (f : B → A → M B) xs ys acc σ :
  for_each f (xs ++ ys)%list acc σ
  = (do acc' <- for_each f xs acc; for_each f ys acc') σ.
Proof.
  revert acc σ. induction xs as [|x xs IH]; intros acc σ; cbn; [done|].
  unfold bind. destruct (f acc x σ) as [acc' σ1| |]; [|done|done].
  by rewrite IH.
Qed.

(** ** _resolve_additional_properties *)

(** What the function does on each kind of configuration: a boolean
    override is returned; with no override, the unknown-field policy decides;
    with neither, the answer is [False]. *)
Lemma resolve_additional_properties_bool cls b :
  additional_properties (cls_Meta cls) = Some (PBool b) →
  _resolve_additional_properties cls = inr (PBool b).
Proof.
  unfold _resolve_additional_properties. intros ->. by destruct b.
Qed.

Lemma resolve_additional_properties_unknown cls :
  additional_properties (cls_Meta cls) = None →
  _resolve_additional_properties cls =
    match unknown (cls_Meta cls) with
    | None => inr (PBool false)
    | Some (PStr "raise") | Some (PStr "exclude") => inr (PBool false)
    | Some (PStr "include") => inr (PBool true)
    | Some _ => inl (UnsupportedValueError "Unknown value %s for `unknown`")
    end.
Proof.
  unfold _resolve_additional_properties. intros ->.
  destruct (unknown (cls_Meta cls)) as [u|]; [|done].
  destruct u as [| | |s| |]; try done.
  unfold py_eq_str, RAISE, EXCLUDE, INCLUDE.
  destruct (String.eqb_spec s "raise") as [->|H1]; [done|].
  destruct (String.eqb_spec s "exclude") as [->|H2]; [done|].
  destruct (String.eqb_spec s "include") as [->|H3]; [done|].
  cbn.
  repeat (match goal with
          | |- context [match ?s with EmptyString => _ | String _ _ => _ end] =>
              destruct s as [|? ?]; try done
          | |- context [match ?a with Ascii.Ascii _ _ _ _ _ _ _ _ => _ end] =>
              destruct a as [[] [] [] [] [] [] [] []]; try done
          end).
Qed.

Lemma resolve_additional_properties_other cls ap :
  additional_properties (cls_Meta cls) = Some ap →
  (∀ b, ap ≠ PBool b) → ap ≠ PInt 0 → ap ≠ PInt 1 →
  _resolve_additional_properties cls =
    inl (UnsupportedValueError "`additional_properties` must be either True or False").
Proof.
  unfold _resolve_additional_properties. intros -> Hb H0 H1.
  destruct ap as [|b|n| | |]; try done.
  - by destruct (Hb b).
  - cbn. destruct (Z.eqb_spec n 1) as [->|?]; [done|].
    destruct (Z.eqb_spec n 0) as [->|?]; done.
Qed.

(** C6, at the input where the code leaves it: an [additional_properties]
    of 1 is present and is not a boolean, and it is returned as it is; no
    configuration error is raised. *)
Theorem additional_properties_one_is_returned :
  _resolve_additional_properties
    {| cls_name := "S";
       cls_Meta := {| additional_properties := Some (PInt 1); unknown := None |} |}
  = inr (PInt 1).
Proof. reflexivity. Qed.

(** ** get_required and the [required] key *)

#[global] Instance key_le_total : Total key_le.
Proof. intros x y. apply String.leb_total. Qed.

Lemma sorted_items_Sorted l : Sorted key_le (sorted_items l).
Proof. apply (Sorted_merge_sort key_le). Qed.

Lemma sorted_items_Permutation l : sorted_items l ≡ₚ l.
Proof. apply merge_sort_Permutation. Qed.

Lemma required_loop (items : list (string * field)) (acc : list string) :
  foldl (λ required '(_, field),
           if field_required field then (required ++ [field_name field])%list
           else required) acc items
  = (acc ++ ((λ item, field_name item.2)
               <$> filter (λ item, field_required item.2 = true) items))%list.
Proof.
  revert acc. induction items as [|[k f] items IH]; intros acc; cbn.
  - by rewrite app_nil_r.
  - rewrite IH. destruct (field_required f); cbn.
    + by rewrite <- app_assoc.
    + done.
Qed.

Lemma get_required_names obj :
  get_required obj =
    match required_names obj with [] => None | names => Some names end.
Proof.
  unfold get_required, required_names. rewrite required_loop. cbn.
  by destruct (_ <$> _).
Qed.

Lemma required_names_nil obj :
  required_names obj = [] →
  ¬ ∃ item, item ∈ schema_fields obj ∧ field_required item.2 = true.
Proof.
  unfold required_names. intros Hnil%fmap_nil_inv (item & Hin & Hreq).
  assert (item ∈ filter (λ item, field_required item.2 = true)
                   (sorted_items (schema_fields obj))) as Hf.
  { apply list_elem_of_filter. split; [done|].
    by rewrite sorted_items_Permutation. }
  rewrite Hnil in Hf. by apply not_elem_of_nil in Hf.
Qed.

Lemma required_names_cons obj name names :
  required_names obj = name :: names →
  ∃ item, item ∈ schema_fields obj ∧ field_required item.2 = true.
Proof.
  unfold required_names.
  destruct (filter _ _) as [|item rest] eqn:E; [done|]. intros _.
  assert (item ∈ filter (λ item, field_required item.2 = true)
                   (sorted_items (schema_fields obj))) as Hf.
  { rewrite E. apply list_elem_of_here. }
  apply list_elem_of_filter in Hf as [Hreq Hin].
  exists item. split; [|done]. by rewrite <- sorted_items_Permutation.
Qed.

Lemma serialize_required properties required :
  serialize properties required !! "required"
  = (λ names, JVal (PList (PStr <$> names))) <$> required.
Proof.
  unfold serialize. destruct required as [names|]; cbn.
  - by rewrite lookup_insert_eq.
  - by rewrite !lookup_insert_ne, lookup_empty.
Qed.

Lemma dump_fragment mm hs depth self obj σ out σ' :
  dump mm hs depth self obj σ = Returns out σ' →
  ∃ (properties : dict) (fragment : dict),
    compiled_as self obj out σ' fragment ∧
    fragment !! "required" = serialize properties (get_required obj) !! "required" ∧
    fragment !! "properties" = Some (JObj properties) ∧
    fragment !! "type" = Some (jstr "object").
Proof.
  destruct depth as [|depth]; [done|]. cbn [dump]. intros H.
  apply bind_Returns in H as (properties & σ1 & _ & H).
  exists properties. unfold wrap, compiled_as in *.
  assert (∀ r, serialize properties r !! "properties" = Some (JObj properties)
               ∧ serialize properties r !! "type" = Some (jstr "object")) as Hs.
  { intros [names|]; cbn; split; by simplify_map_eq. }
  destruct (nested self).
  - apply ret_Returns in H as [-> ->]. eexists. split; [done|].
    split; [done|]. apply Hs.
  - apply bind_Returns in H as (ap & σ2 & [_ ->]%lift_Returns & H).
    apply bind_Returns in H as (u & σ3 & Hset & H).
    apply ret_Returns in H as [-> ->].
    apply dict_setitem_Returns in Hset as (d & Hd & ->).
    eexists. split.
    + eexists. split.
      * apply list_lookup_insert_eq. by eapply lookup_lt_Some.
      * apply lookup_insert_eq.
    + rewrite !lookup_insert_ne by done. split; [done|]. apply Hs.
Qed.

(** C7. After a successful [dump], the fragment of the schema has the key
    [required] exactly when one of its fields is required; the key is then
    the list of the names of the required fields, taken in the order of the
    items sorted by field name, and it is never the empty list. *)
Theorem required_key mm hs depth self obj σ out σ' :
  dump mm hs depth self obj σ = Returns out σ' →
  ∃ fragment : dict,
    compiled_as self obj out σ' fragment ∧
    (is_Some (fragment !! "required") ↔
       ∃ item, item ∈ schema_fields obj ∧ field_required item.2 = true) ∧
    (∀ v, fragment !! "required" = Some v →
          v = JVal (PList (PStr <$> required_names obj)) ∧ required_names obj ≠ []) ∧
    Sorted key_le (sorted_items (schema_fields obj)) ∧
    sorted_items (schema_fields obj) ≡ₚ schema_fields obj.
Proof.
  intros H. apply dump_fragment in H as (properties & fragment & Hc & Hreq & _).
  exists fragment. split; [done|].
  rewrite Hreq, serialize_required, get_required_names.
  pose proof (required_names_nil obj) as Hnil.
  pose proof (required_names_cons obj) as Hcons.
  split; [|split; [|split]].
  - destruct (required_names obj) as [|n ns]; cbn.
    + split; [by intros [? ?]|]. intros Hex. by destruct Hnil.
    + split; [|by eauto]. intros _. by eapply Hcons.
  - intros v. destruct (required_names obj) as [|n ns]; cbn; [done|].
    by intros [= <-].
  - apply sorted_items_Sorted.
  - apply sorted_items_Permutation.
Qed.

Lemma required_key_witness :
  let self := {| _nested_schema_classes := 0; nested := false |} in
  let obj := instance_of Person None [] in
  ∃ out σ',
    dump world validation_handlers 10 self obj [∅] = Returns out σ' ∧
    ∃ fragment : dict,
      compiled_as self obj out σ' fragment ∧
      (is_Some (fragment !! "required") ↔
         ∃ item, item ∈ schema_fields obj ∧ field_required item.2 = true) ∧
      (∀ v, fragment !! "required" = Some v →
            v = JVal (PList (PStr <$> required_names obj)) ∧ required_names obj ≠ []) ∧
      Sorted key_le (sorted_items (schema_fields obj)) ∧
      sorted_items (schema_fields obj) ≡ₚ schema_fields obj.
Proof.
  intros self obj. eexists _, _. split.
  - vm_compute. reflexivity.
  - apply (required_key world validation_handlers 10 self obj [∅]).
    vm_compute. reflexivity.
Defined.

(** ** The validators of a field *)

Lemma same_class_sym c d : same_class c d = same_class d c.
Proof. unfold same_class. apply String.eqb_sym. Qed.

Lemma lookup_class_unrecognized hs c :
  recognized c = false → lookup_class (FIELD_VALIDATORS hs) c = None.
Proof.
  unfold recognized, FIELD_VALIDATORS. cbn [existsb lookup_class].
  rewrite !(same_class_sym c), orb_false_r.
  intros [H1 [H2 H3]%orb_false_elim]%orb_false_elim. by rewrite H1, H2, H3.
Qed.

Lemma lookup_class_recognized hs c :
  recognized c = true → is_Some (lookup_class (FIELD_VALIDATORS hs) c).
Proof.
  unfold recognized, FIELD_VALIDATORS. cbn [existsb lookup_class].
  rewrite !(same_class_sym c), orb_false_r.
  destruct (same_class validate_Length c); [by eauto|].
  destruct (same_class validate_OneOf c); [by eauto|].
  destruct (same_class validate_Range c); [by eauto|done].
Qed.

Lemma apply_validator_unrecognized hs obj field schema v σ :
  recognized (validator_class v) = false →
  apply_validator hs obj field schema v σ = Returns schema σ.
Proof.
  intros H. unfold apply_validator. by rewrite (lookup_class_unrecognized hs _ H).
Qed.

Lemma for_each_handled hs obj field vs schema σ :
  for_each (apply_validator hs obj field) vs schema σ
  = for_each (apply_validator hs obj field) (handled vs) schema σ.
Proof.
  revert schema σ. induction vs as [|v vs IH]; intros schema σ; [done|].
  cbn [handled List.filter for_each].
  destruct (recognized (validator_class v)) eqn:E.
  - cbn [for_each]. unfold bind.
    destruct (apply_validator hs obj field schema v σ); [apply IH|done|done].
  - unfold bind. rewrite apply_validator_unrecognized by done. apply IH.
Qed.

(** [_get_schema_for_field] ends with the loop over the validators of the
    field, run on the fragment it has resolved. *)
Lemma get_schema_for_field_validators mm hs depth self obj field σ out σ' :
  _get_schema_for_field mm hs depth self obj field σ = Returns out σ' →
  ∃ schema σ1,
    for_each (apply_validator hs obj field) (field_validators field) schema σ1
    = Returns out σ'.
Proof.
  destruct depth as [|depth]; [done|]. cbn [_get_schema_for_field]. intros H.
  apply bind_Returns in H as (schema & σ1 & _ & H). eauto.
Qed.

Lemma apply_validator_Length hs obj field schema v σ :
  cls_id (validator_class v) = cls_id validate_Length →
  apply_validator hs obj field schema v σ = handle_length hs schema field v obj σ.
Proof.
  intros H. unfold apply_validator, FIELD_VALIDATORS. cbn [lookup_class].
  unfold same_class at 1. by rewrite H.
Qed.

Lemma apply_validator_OneOf hs obj field schema v σ :
  cls_id (validator_class v) = cls_id validate_OneOf →
  apply_validator hs obj field schema v σ = handle_one_of hs schema field v obj σ.
Proof.
  intros H. unfold apply_validator, FIELD_VALIDATORS. cbn [lookup_class].
  unfold same_class. by rewrite H.
Qed.

Lemma apply_validator_Range hs obj field schema v σ :
  cls_id (validator_class v) = cls_id validate_Range →
  apply_validator hs obj field schema v σ = handle_range hs schema field v obj σ.
Proof.
  intros H. unfold apply_validator, FIELD_VALIDATORS. cbn [lookup_class].
  unfold same_class. by rewrite H.
Qed.

(** The four ways [_get_schema_for_field] resolves a fragment; each time the
    loop over the validators of the field runs on what has been resolved. *)
Lemma get_schema_for_field_by_method mm hs depth self obj field custom σ :
  field_type_mapping_method field = Some custom →
  _get_schema_for_field mm hs (S depth) self obj field σ
  = for_each (apply_validator hs obj field) (field_validators field) custom σ.
Proof. intros H. cbn [_get_schema_for_field]. by rewrite H. Qed.

Lemma get_schema_for_field_by_metadata mm hs depth self obj field custom σ :
  field_type_mapping_method field = None →
  field_metadata field !! "_jsonschema_type_mapping" = Some custom →
  _get_schema_for_field mm hs (S depth) self obj field σ
  = for_each (apply_validator hs obj field) (field_validators field) (JVal custom) σ.
Proof. intros H1 H2. cbn [_get_schema_for_field]. by rewrite H1, H2. Qed.

Lemma get_schema_for_field_by_type mm hs depth self obj field t σ :
  field_type_mapping_method field = None →
  field_metadata field !! "_jsonschema_type_mapping" = None →
  _get_pytype field (_get_default_mapping obj) = inr (to_type t) →
  _get_schema_for_field mm hs (S depth) self obj field σ
  = (do schema <- _from_python_type mm hs depth self obj field t;
     for_each (apply_validator hs obj field) (field_validators field) schema) σ.
Proof. intros H1 H2 H3. cbn [_get_schema_for_field]. by rewrite H1, H2, H3. Qed.

Lemma get_schema_for_field_by_nesting mm hs depth self obj field σ :
  field_type_mapping_method field = None →
  field_metadata field !! "_jsonschema_type_mapping" = None →
  _get_pytype field (_get_default_mapping obj) = inr (to_method "_from_nested_schema") →
  _get_schema_for_field mm hs (S depth) self obj field σ
  = (do schema <- _from_nested_schema mm hs depth self obj field;
     for_each (apply_validator hs obj field) (field_validators field) schema) σ.
Proof.
  intros H1 H2 H3. cbn [_get_schema_for_field]. rewrite H1, H2, H3. cbn [lift].
  unfold bind at 1 2. unfold ret at 1. cbv beta iota.
  by rewrite String.eqb_refl.
Qed.

(** C9. However [_get_schema_for_field] has resolved the fragment of a
    field, it then runs the loop over the validators of the field on it, in
    their order, each validator working on the fragment the one before has
    returned. A validator of class [validate.Length], [validate.OneOf] or
    [validate.Range] is handed to its handler, with the fragment, the field,
    the validator and the schema. A validator of any other class changes
    nothing: the fragment and the store are as before and nothing is raised;
    so the loop does what it would do on the recognized validators alone. *)
Theorem validators_applied_in_order mm hs depth self obj field :
  (∀ custom σ,
     field_type_mapping_method field = Some custom →
     _get_schema_for_field mm hs (S depth) self obj field σ
     = for_each (apply_validator hs obj field) (field_validators field) custom σ) ∧
  (∀ custom σ,
     field_type_mapping_method field = None →
     field_metadata field !! "_jsonschema_type_mapping" = Some custom →
     _get_schema_for_field mm hs (S depth) self obj field σ
     = for_each (apply_validator hs obj field) (field_validators field) (JVal custom) σ) ∧
  (∀ t σ,
     field_type_mapping_method field = None →
     field_metadata field !! "_jsonschema_type_mapping" = None →
     _get_pytype field (_get_default_mapping obj) = inr (to_type t) →
     _get_schema_for_field mm hs (S depth) self obj field σ
     = (do schema <- _from_python_type mm hs depth self obj field t;
        for_each (apply_validator hs obj field) (field_validators field) schema) σ) ∧
  (∀ σ,
     field_type_mapping_method field = None →
     field_metadata field !! "_jsonschema_type_mapping" = None →
     _get_pytype field (_get_default_mapping obj)
     = inr (to_method "_from_nested_schema") →
     _get_schema_for_field mm hs (S depth) self obj field σ
     = (do schema <- _from_nested_schema mm hs depth self obj field;
        for_each (apply_validator hs obj field) (field_validators field) schema) σ) ∧
  (∀ v vs schema σ,
     for_each (apply_validator hs obj field) (v :: vs) schema σ
     = (do schema' <- apply_validator hs obj field schema v;
        for_each (apply_validator hs obj field) vs schema') σ) ∧
  (∀ v schema σ,
     cls_id (validator_class v) = cls_id validate_Length →
     apply_validator hs obj field schema v σ = handle_length hs schema field v obj σ) ∧
  (∀ v schema σ,
     cls_id (validator_class v) = cls_id validate_OneOf →
     apply_validator hs obj field schema v σ = handle_one_of hs schema field v obj σ) ∧
  (∀ v schema σ,
     cls_id (validator_class v) = cls_id validate_Range →
     apply_validator hs obj field schema v σ = handle_range hs schema field v obj σ) ∧
  (∀ v schema σ,
     recognized (validator_class v) = false →
     apply_validator hs obj field schema v σ = Returns schema σ) ∧
  (∀ vs schema σ,
     for_each (apply_validator hs obj field) vs schema σ
     = for_each (apply_validator hs obj field) (handled vs) schema σ).
Proof.
  split; [by intros; apply get_schema_for_field_by_method|].
  split; [by intros; apply get_schema_for_field_by_metadata|].
  split; [by intros; apply get_schema_for_field_by_type|].
  split; [by intros; apply get_schema_for_field_by_nesting|].
  split; [done|].
  split; [by intros; apply apply_validator_Length|].
  split; [by intros; apply apply_validator_OneOf|].
  split; [by intros; apply apply_validator_Range|].
  split; [by intros; apply apply_validator_unrecognized|].
  intros. apply for_each_handled.
Qed.

(** A string with a pattern, which no handler knows, and a length between 1
    and 5: the pattern changes nothing, the length goes to [handle_length]
    and the fragment of the field has it. *)
Lemma validators_applied_in_order_witness :
  let obj := instance_of Pet None [] in
  let pattern := a_validator validate_Regexp [("regex", PStr "[a-z]+")] in
  let length := a_validator validate_Length [("min", PInt 1); ("max", PInt 5)] in
  let f := set_validators [pattern; length] (String_field "nick") in
  let schema := JObj {[ "type" := jstr "string" ]} in
  apply_validator validation_handlers obj f schema pattern [] = Returns schema [] ∧
  apply_validator validation_handlers obj f schema length []
  = handle_length validation_handlers schema f length obj [] ∧
  apply_validator validation_handlers obj f schema length []
  = Returns (JObj {[ "type" := jstr "string";
                     "minLength" := JVal (PInt 1);
                     "maxLength" := JVal (PInt 5) ]}) [] ∧
  _get_schema_for_field world validation_handlers 2 root0 obj f []
  = (do schema <- _from_python_type world validation_handlers 1 root0 obj f binary_type;
     for_each (apply_validator validation_handlers obj f) [pattern; length] schema) [] ∧
  _get_schema_for_field world validation_handlers 2 root0 obj f []
  = Returns (JObj {[ "title" := jstr "nick";
                     "type" := jstr "string";
                     "minLength" := JVal (PInt 1);
                     "maxLength" := JVal (PInt 5) ]}) [].
Proof.
  intros obj pattern length f schema.
  destruct (validators_applied_in_order world validation_handlers 1 root0 obj f)
    as (_ & _ & Htyped & _ & _ & Hlength & _ & _ & Hskip & _).
  split; [apply Hskip; reflexivity|].
  split; [apply Hlength; reflexivity|].
  split; [rewrite Hlength by reflexivity; vm_compute; reflexivity|].
  split; [apply (Htyped binary_type); reflexivity|].
  rewrite (Htyped binary_type) by reflexivity. vm_compute. reflexivity.
Defined.

(** ** Dispatch on classes *)

Lemma get_pytype_first_match field before c t after :
  (∀ entry, entry ∈ before → issubclass (field_class field) entry.1 = false) →
  issubclass (field_class field) c = true →
  _get_pytype field (before ++ (c, t) :: after) = inr t.
Proof.
  intros Hbefore Hc. induction before as [|[c' t'] before IH]; cbn.
  - by rewrite Hc.
  - pose proof (Hbefore (c', t') (list_elem_of_here _ _)) as H. cbn in H.
    rewrite H. apply IH. intros entry Hin. apply Hbefore. by apply list_elem_of_further.
Qed.

(** C10. A validator whose class descends from a class of
    [FIELD_VALIDATORS] without being one of them finds no handler: the
    fragment and the store stay as they are. The mapping of the field
    classes is read otherwise: [_get_pytype] answers with the first entry
    whose class is the class of the field or one of its ancestors. *)
Theorem validators_match_by_class_itself hs obj field schema v σ base :
  base ∈ [validate_Length; validate_OneOf; validate_Range] →
  issubclass (validator_class v) base = true →
  (∀ c, c ∈ [validate_Length; validate_OneOf; validate_Range] →
        cls_id (validator_class v) ≠ cls_id c) →
  apply_validator hs obj field schema v σ = Returns schema σ ∧
  (∀ before c t after,
     (∀ entry, entry ∈ before → issubclass (field_class field) entry.1 = false) →
     issubclass (field_class field) c = true →
     _get_pytype field (before ++ (c, t) :: after) = inr t).
Proof.
  intros _ _ Hstrict. split.
  - apply apply_validator_unrecognized. unfold recognized. cbn [existsb].
    rewrite orb_false_r. unfold same_class.
    rewrite !orb_false_iff, !String.eqb_neq.
    split; [|split]; apply Hstrict; set_solver.
  - intros. by apply get_pytype_first_match.
Qed.

Lemma validators_match_by_class_itself_witness :
  let v := a_validator MyLength [("min", PInt 1)] in
  let f := set_validators [v] (a_field fields_Email "email") in
  let schema := JObj {[ "type" := jstr "string" ]} in
  apply_validator validation_handlers (instance_of Pet None []) f schema v []
  = Returns schema [] ∧
  _get_pytype f ([] ++ (fields_String, to_type binary_type) :: []) = inr (to_type binary_type).
Proof.
  intros v f schema.
  destruct (validators_match_by_class_itself validation_handlers
              (instance_of Pet None []) f schema v [] validate_Length) as [H1 H2].
  - set_solver.
  - reflexivity.
  - intros c Hc. repeat (apply elem_of_cons in Hc as [->|Hc]; [done|]).
    by apply not_elem_of_nil in Hc.
  - split; [exact H1|]. apply H2; [|reflexivity].
    intros entry Hin. by apply not_elem_of_nil in Hin.
Defined.

(** ** Metadata *)

Lemma lookup_copy_metadata (metadata json_schema : dict) key :
  copy_metadata metadata json_schema !! key
  = (if String.eqb key "metadata" then None else metadata !! key)
    ∪ json_schema !! key.
Proof.
  unfold copy_metadata.
  apply (map_fold_weak_ind
           (λ (r : dict) (m : dict),
              r !! key = (if String.eqb key "metadata" then None else m !! key)
                         ∪ json_schema !! key)).
  - rewrite lookup_empty.
    by destruct (String.eqb key "metadata"), (json_schema !! key).
  - intros i x m r Hi IH.
    destruct (String.eqb_spec i "metadata") as [->|Hne].
    + rewrite IH. destruct (String.eqb_spec key "metadata") as [->|Hk]; [done|].
      by rewrite lookup_insert_ne.
    + destruct (decide (i = key)) as [->|Hik].
      * rewrite !lookup_insert_eq.
        by destruct (String.eqb_spec key "metadata"), (json_schema !! key).
      * rewrite !lookup_insert_ne by done. by rewrite IH.
Qed.

Lemma doubled_metadata_Returns field σ metadata σ' :
  doubled_metadata field σ = Returns metadata σ' →
  ∃ sub,
    nested_metadata field σ = Some sub ∧
    metadata = (JVal <$> field_metadata field) ∪ sub ∧
    σ' = match field_metadata field !! "metadata" with
         | Some (PRef l) => <[l := metadata]> σ
         | _ => σ
         end.
Proof.
  unfold doubled_metadata, nested_metadata.
  destruct (field_metadata field !! "metadata") as [[| | | | |l]|]; try done.
  - intros H.
    apply bind_Returns in H as (d & σ1 & [Hd ->]%get_dict_Returns & H).
    apply bind_Returns in H as (u & σ2 & [_ ->]%set_dict_Returns & H).
    apply ret_Returns in H as [-> ->]. eauto.
  - intros [-> ->]%ret_Returns. exists ∅. by rewrite (right_id_L ∅ (∪)).
Qed.


(** ** The fragment of a typed field *)

Lemma TYPE_MAP_NoDup t table : TYPE_MAP t = Some table → NoDup table.*1.
Proof.
  destruct t; cbn; intros E; try done; injection E as <-;
    apply (bool_decide_unpack _); vm_compute; exact I.
Qed.

Lemma at_key_eq key v : at_key key key v = v.
Proof. unfold at_key. by rewrite String.eqb_refl. Qed.

Lemma at_key_ne key k v : key ≠ k → at_key key k v = None.
Proof. unfold at_key. by intros ->%String.eqb_neq. Qed.

Lemma option_union_None_l {A} (o : option A) : None ∪ o = o.
Proof. by destruct o. Qed.

Lemma option_union_Some_l {A} (x : A) (o : option A) : Some x ∪ o = Some x.
Proof. by destruct o. Qed.

Lemma option_union_None_r {A} (o : option A) : o ∪ None = o.
Proof. by destruct o. Qed.

Lemma option_union_assoc {A} (o1 o2 o3 : option A) : o1 ∪ (o2 ∪ o3) = o1 ∪ o2 ∪ o3.
Proof. by destruct o1, o2, o3. Qed.

Lemma lookup_foldl_insert (table : list (string * json)) (js : dict) key :
  NoDup table.*1 →
  foldl (λ js '(key, val), <[key := val]> js) js table !! key
  = (list_to_map table : dict) !! key ∪ js !! key.
Proof.
  revert js. induction table as [|[k v] table IH]; intros js Hnd; cbn.
  - rewrite lookup_empty. by destruct (js !! key).
  - apply NoDup_cons in Hnd as [Hk Hnd]. rewrite IH by done.
    destruct (decide (k = key)) as [->|Hne].
    + rewrite !lookup_insert_eq.
      rewrite (not_elem_of_list_to_map_1 (M := gmap string)) by done.
      by rewrite option_union_None_l, option_union_Some_l.
    + by rewrite !lookup_insert_ne.
Qed.

Lemma lookup_typed_fragment field table key :
  NoDup table.*1 →
  typed_fragment field table !! key
  = at_key key "default" (JVal <$> field_default field)
    ∪ at_key key "readonly" (if field_dump_only field then Some (jbool true) else None)
    ∪ (list_to_map table : dict) !! key
    ∪ at_key key "title" (Some (jstr (attribute_or_name field))).
Proof.
  intros Hnd. unfold typed_fragment.
  assert (∀ js : dict,
            (match field_default field with
             | Some d => <["default" := JVal d]> js
             | None => js
             end) !! key
            = at_key key "default" (JVal <$> field_default field) ∪ js !! key) as Hdef.
  { intros js. unfold at_key. destruct (String.eqb_spec key "default") as [->|Hne].
    - destruct (field_default field); cbn;
        [by rewrite lookup_insert_eq, option_union_Some_l|].
      by rewrite option_union_None_l.
    - rewrite option_union_None_l.
      destruct (field_default field); [by rewrite lookup_insert_ne|done]. }
  assert (∀ js : dict,
            (if field_dump_only field then <["readonly" := jbool true]> js else js) !! key
            = at_key key "readonly"
                (if field_dump_only field then Some (jbool true) else None)
              ∪ js !! key) as Hro.
  { intros js. unfold at_key. destruct (String.eqb_spec key "readonly") as [->|Hne].
    - destruct (field_dump_only field);
        [by rewrite lookup_insert_eq, option_union_Some_l|].
      by rewrite option_union_None_l.
    - rewrite option_union_None_l.
      destruct (field_dump_only field); [by rewrite lookup_insert_ne|done]. }
  rewrite Hdef, Hro, lookup_foldl_insert by done.
  rewrite !option_union_assoc. f_equal.
  unfold at_key. destruct (String.eqb_spec key "title") as [->|Hne].
  - by rewrite lookup_singleton_eq.
  - by rewrite lookup_singleton_ne.
Qed.

Lemma lookup_with_items items (js : dict) key :
  with_items items js !! key = at_key key "items" items ∪ js !! key.
Proof.
  unfold with_items, at_key. destruct (String.eqb_spec key "items") as [->|Hne].
  - destruct items; [by rewrite lookup_insert_eq, option_union_Some_l
                    |by rewrite option_union_None_l].
  - rewrite option_union_None_l. destruct items; [by rewrite lookup_insert_ne|done].
Qed.

(** The fragment the code builds by successive assignments is the one the
    specification describes by precedence. *)
Lemma lookup_post_processed field table metadata items key :
  NoDup table.*1 →
  with_items items (copy_metadata metadata (typed_fragment field table)) !! key
  = post_processed field table metadata items key.
Proof.
  intros Hnd. unfold post_processed.
  rewrite lookup_with_items, lookup_copy_metadata, lookup_typed_fragment by done.
  by rewrite !option_union_assoc.
Qed.

(** What a successful [_from_python_type] has done. *)
Lemma from_python_type_Returns mm hs depth self obj field t σ frag σ' :
  _from_python_type mm hs depth self obj field t σ = Returns frag σ' →
  ∃ table metadata σ1 items,
    TYPE_MAP t = Some table ∧
    doubled_metadata field σ = Returns metadata σ1 ∧
    (if issubclass (field_class field) fields_List
     then ∃ depth' inner item,
         depth = S depth' ∧ field_inner field = Some inner ∧
         _get_schema_for_field mm hs depth' self obj inner σ1 = Returns item σ' ∧
         items = Some item
     else items = None ∧ σ' = σ1) ∧
    frag = JObj (with_items items (copy_metadata metadata (typed_fragment field table))).
Proof.
  destruct depth as [|depth]; [done|]. cbn [_from_python_type]. intros H.
  apply bind_Returns in H as (table & σ0 & [Ht ->]%lift_Returns & H).
  apply bind_Returns in H as (metadata & σ1 & Hmd & H).
  exists table, metadata, σ1.
  assert (TYPE_MAP t = Some table) as Htable.
  { destruct (TYPE_MAP t); by inversion Ht. }
  destruct (issubclass (field_class field) fields_List).
  - apply bind_Returns in H as (inner & σ2 & [Hi ->]%lift_Returns & H).
    apply bind_Returns in H as (item & σ3 & Hitem & H).
    apply ret_Returns in H as [-> ->].
    exists (Some item). split; [done|]. split; [done|]. split; [|done].
    exists depth, inner, item. split; [done|]. split; [|done].
    destruct (field_inner field); by inversion Hi.
  - apply ret_Returns in H as [-> ->]. exists None. by eauto.
Qed.

(** ** Nested fields *)

(** What a successful [_from_nested_schema] has done. *)
Lemma from_nested_schema_Returns mm hs depth self obj field σ frag σ' :
  _from_nested_schema mm hs depth self obj field σ = Returns frag σ' →
  ∃ name nested_cls nested_instance σ1 σ2 metadata,
    resolve_nested mm field σ = Returns (name, nested_cls, nested_instance) σ1 ∧
    doubled_metadata field σ2 = Returns metadata σ' ∧
    let reference := copy_metadata metadata (reference_to name) in
    frag = if field_many field
           then JObj (<["items" := JObj reference]>
                      {[ "type" := if field_required field then jstr "array"
                                   else JVal (PList [PStr "array"; PStr "null"]) ]})
           else JObj reference.
Proof.
  destruct depth as [|depth]; [done|]. cbn [_from_nested_schema]. intros H.
  apply bind_Returns in H as ([[name nested_cls] nested_instance] & σ1 & Hres & H).
  apply bind_Returns in H as (seen & σ1' & _ & H).
  apply bind_Returns in H as (u & σ2 & _ & H).
  apply bind_Returns in H as (metadata & σ3 & Hmd & H).
  exists name, nested_cls, nested_instance, σ1, σ2, metadata.
  split; [done|].
  destruct (field_many field); apply ret_Returns in H as [-> ->]; by split.
Qed.

(** C8. The fragment of a nested field with the [many] flag has two keys:
    [items], the reference to the definition of the target (with the
    metadata of the field copied into it, as for every reference), and
    [type], which is "array" for a required field and ["array", "null"]
    otherwise. Unless the metadata say otherwise, the reference has its
    [$ref] to [#/definitions/<name of the target>]. *)
Theorem many_nested_is_array_of_reference mm hs depth self obj field σ frag σ' :
  _from_nested_schema mm hs depth self obj field σ = Returns frag σ' →
  field_many field = true →
  ∃ name nested_cls nested_instance σ1 σ2 metadata,
    resolve_nested mm field σ = Returns (name, nested_cls, nested_instance) σ1 ∧
    doubled_metadata field σ2 = Returns metadata σ' ∧
    let reference := copy_metadata metadata (reference_to name) in
    frag = JObj (<["items" := JObj reference]>
                 {[ "type" := if field_required field then jstr "array"
                              else JVal (PList [PStr "array"; PStr "null"]) ]}) ∧
    (metadata !! "$ref" = None →
     reference !! "$ref" = Some (jstr ("#/definitions/" ++ name))) ∧
    (metadata = ∅ → reference = reference_to name).
Proof.
  intros H Hmany.
  apply from_nested_schema_Returns in H
    as (name & nested_cls & nested_instance & σ1 & σ2 & metadata & Hres & Hmd & Hfrag).
  exists name, nested_cls, nested_instance, σ1, σ2, metadata.
  rewrite Hmany in Hfrag. split; [done|]. split; [done|]. cbn. split; [done|]. split.
  - intros Hno. rewrite lookup_copy_metadata. cbn. rewrite Hno.
    unfold reference_to. by rewrite lookup_insert_eq.
  - intros ->. apply map_eq. intros key. rewrite lookup_copy_metadata, lookup_empty.
    destruct (String.eqb key "metadata"); apply option_union_None_l.
Qed.

Lemma many_nested_is_array_of_reference_witness :
  let self := {| _nested_schema_classes := 0; nested := false |} in
  let obj := instance_of Person None [] in
  let pets := Nested_field "pets" (NestedName "Pet") true in
  ∃ frag σ',
    _from_nested_schema world validation_handlers 10 self obj pets [∅] = Returns frag σ' ∧
    ∃ name nested_cls nested_instance σ1 σ2 metadata,
      resolve_nested world pets [∅] = Returns (name, nested_cls, nested_instance) σ1 ∧
      doubled_metadata pets σ2 = Returns metadata σ' ∧
      let reference := copy_metadata metadata (reference_to name) in
      frag = JObj (<["items" := JObj reference]>
                   {[ "type" := JVal (PList [PStr "array"; PStr "null"]) ]}) ∧
      (metadata !! "$ref" = None →
       reference !! "$ref" = Some (jstr ("#/definitions/" ++ name))) ∧
      (metadata = ∅ → reference = reference_to name).
Proof.
  intros self obj pets. eexists _, _. split.
  - vm_compute. reflexivity.
  - apply (many_nested_is_array_of_reference world validation_handlers 10 self obj pets [∅]).
    + vm_compute. reflexivity.
    + reflexivity.
Defined.

(** ** Post-processing *)

Lemma get_schema_for_field_method mm hs depth self obj field custom σ :
  field_type_mapping_method field = Some custom →
  _get_schema_for_field mm hs (S depth) self obj field σ
  = for_each (apply_validator hs obj field) (field_validators field) custom σ.
Proof. intros H. cbn [_get_schema_for_field]. by rewrite H. Qed.

Lemma get_schema_for_field_metadata mm hs depth self obj field custom σ :
  field_type_mapping_method field = None →
  field_metadata field !! "_jsonschema_type_mapping" = Some custom →
  _get_schema_for_field mm hs (S depth) self obj field σ
  = for_each (apply_validator hs obj field) (field_validators field) (JVal custom) σ.
Proof. intros H1 H2. cbn [_get_schema_for_field]. by rewrite H1, H2. Qed.

Lemma get_schema_for_field_typed mm hs depth self obj field t σ :
  field_type_mapping_method field = None →
  field_metadata field !! "_jsonschema_type_mapping" = None →
  _get_pytype field (_get_default_mapping obj) = inr (to_type t) →
  _get_schema_for_field mm hs (S depth) self obj field σ
  = (do schema <- _from_python_type mm hs depth self obj field t;
     for_each (apply_validator hs obj field) (field_validators field) schema) σ.
Proof. intros H1 H2 H3. cbn [_get_schema_for_field]. by rewrite H1, H2, H3. Qed.

(** C4, as the code has it. A field resolved through the type table gets
    the post-processing: key by key its fragment is [post_processed], that
    is the items of a list, then the effective metadata, then the default,
    the output-only flag, the table entry and the title. A field with a
    fragment of its own (from its method or from its metadata) gets none of
    it: the fragment goes to the validators as it is. *)
Theorem post_processing_of_typed_fields mm hs depth self obj field :
  (∀ t σ,
     field_type_mapping_method field = None →
     field_metadata field !! "_jsonschema_type_mapping" = None →
     _get_pytype field (_get_default_mapping obj) = inr (to_type t) →
     _get_schema_for_field mm hs (S depth) self obj field σ
     = (do schema <- _from_python_type mm hs depth self obj field t;
        for_each (apply_validator hs obj field) (field_validators field) schema) σ) ∧
  (∀ t σ frag σ',
     _from_python_type mm hs depth self obj field t σ = Returns frag σ' →
     ∃ table metadata σ1 items json_schema,
       TYPE_MAP t = Some table ∧
       doubled_metadata field σ = Returns metadata σ1 ∧
       (if issubclass (field_class field) fields_List
        then ∃ depth' inner item,
            depth = S depth' ∧ field_inner field = Some inner ∧
            _get_schema_for_field mm hs depth' self obj inner σ1 = Returns item σ' ∧
            items = Some item
        else items = None ∧ σ' = σ1) ∧
       frag = JObj json_schema ∧
       ∀ key, json_schema !! key = post_processed field table metadata items key) ∧
  (∀ custom σ,
     field_type_mapping_method field = Some custom →
     _get_schema_for_field mm hs (S depth) self obj field σ
     = for_each (apply_validator hs obj field) (field_validators field) custom σ) ∧
  (∀ custom σ,
     field_type_mapping_method field = None →
     field_metadata field !! "_jsonschema_type_mapping" = Some custom →
     _get_schema_for_field mm hs (S depth) self obj field σ
     = for_each (apply_validator hs obj field) (field_validators field) (JVal custom) σ).
Proof.
  split; [|split; [|split]].
  - intros. by apply get_schema_for_field_typed.
  - intros t σ frag σ' H.
    apply from_python_type_Returns in H
      as (table & metadata & σ1 & items & Ht & Hmd & Hitems & ->).
    exists table, metadata, σ1, items. eexists.
    split; [done|]. split; [done|]. split; [done|]. split; [done|].
    intros key. apply lookup_post_processed. by eapply TYPE_MAP_NoDup.
  - intros. by apply get_schema_for_field_method.
  - intros. by apply get_schema_for_field_metadata.
Qed.

Lemma post_processing_of_typed_fields_witness :
  let obj := instance_of Pet None [] in
  ∃ frag σ',
    _from_python_type world validation_handlers 9 root0 obj count_field py_int count_store
    = Returns frag σ' ∧
    ∃ table metadata σ1 items json_schema,
      TYPE_MAP py_int = Some table ∧
      doubled_metadata count_field count_store = Returns metadata σ1 ∧
      (items = None ∧ σ' = σ1) ∧
      frag = JObj json_schema ∧
      ∀ key, json_schema !! key = post_processed count_field table metadata items key.
Proof.
  intros obj. eexists _, _. split.
  - vm_compute. reflexivity.
  - destruct (post_processing_of_typed_fields world validation_handlers 9 root0 obj
                count_field) as (_ & H & _).
    apply (H py_int count_store). vm_compute. reflexivity.
Defined.

(** A field that brings its own fragment: the fragment comes out as it went
    in, without title, [readonly], [default] or the description, though the
    field has all of them. *)
Lemma override_is_not_post_processed :
  let obj := instance_of Pet None [] in
  let custom : dict := {[ "type" := jstr "string" ]} in
  field_dump_only code_field = true ∧
  field_default code_field = Some (PStr "none") ∧
  field_metadata code_field !! "description" = Some (PStr "a code") ∧
  _get_schema_for_field world validation_handlers 10 root0 obj code_field [∅]
  = Returns (JObj custom) [∅] ∧
  custom !! "title" = None ∧ custom !! "readonly" = None ∧
  custom !! "default" = None ∧ custom !! "description" = None.
Proof. cbv zeta. repeat split; vm_compute; reflexivity. Qed.




(** ** The store only grows *)

Lemma keeps_keys_refl σ : keeps_keys σ σ.
Proof. intros l d H. eauto. Qed.

Lemma keeps_keys_trans σ1 σ2 σ3 :
  keeps_keys σ1 σ2 → keeps_keys σ2 σ3 → keeps_keys σ1 σ3.
Proof.
  intros H12 H23 l d H.
  apply H12 in H as (d2 & H2 & Hd2). apply H23 in H2 as (d3 & H3 & Hd3).
  exists d3. split; [done|]. set_solver.
Qed.

Lemma keeps_keys_insert σ l (d d' : dict) :
  σ !! l = Some d → dom d ⊆ dom d' → keeps_keys σ (<[l := d']> σ).
Proof.
  intros Hl Hd l1 d1 H1. destruct (decide (l = l1)) as [<-|Hne].
  - exists d'. split; [|by simplify_eq].
    apply list_lookup_insert_eq. by eapply lookup_lt_Some.
  - exists d1. by rewrite list_lookup_insert_ne.
Qed.

Lemma careful_ret {A} (a : A) : careful (ret a).
Proof. intros σ b σ' [_ ->]%ret_Returns. apply keeps_keys_refl. Qed.

Lemma careful_raise {A} e : careful (raise (A := A) e).
Proof. by intros σ b σ' H. Qed.

Lemma careful_lift {A} (r : exn + A) : careful (lift r).
Proof. intros σ b σ' [_ ->]%lift_Returns. apply keeps_keys_refl. Qed.

Lemma careful_bind {A B} (m : M A) (k : A → M B) :
  careful m → (∀ a, careful (k a)) → careful (bind m k).
Proof.
  intros Hm Hk σ b σ' (a & σ1 & H1 & H2)%bind_Returns.
  eapply keeps_keys_trans; [by eapply Hm|by eapply Hk].
Qed.

Lemma careful_for_each {A B} (f : B → A → M B) xs acc :
  (∀ acc x, careful (f acc x)) → careful (for_each f xs acc).
Proof.
  intros Hf. revert acc. induction xs as [|x xs IH]; intros acc; cbn.
  - apply careful_ret.
  - apply careful_bind; [apply Hf|apply IH].
Qed.

Lemma careful_get_dict l : careful (get_dict l).
Proof. intros σ d σ' [_ ->]%get_dict_Returns. apply keeps_keys_refl. Qed.

Lemma careful_new_dict d : careful (new_dict d).
Proof.
  intros σ l σ' [_ ->]%new_dict_Returns l1 d1 H1.
  exists d1. split; [|done]. by apply lookup_app_l_Some.
Qed.

Lemma careful_dict_setitem l k v : careful (dict_setitem l k v).
Proof.
  intros σ u σ' (d & Hd & ->)%dict_setitem_Returns.
  eapply keeps_keys_insert; [done|]. set_solver.
Qed.

Lemma careful_dict_update l l2 : careful (dict_update l l2).
Proof.
  intros σ u σ' (d & d2 & Hd & Hd2 & ->)%dict_update_Returns.
  eapply keeps_keys_insert; [done|]. set_solver.
Qed.

Lemma careful_doubled_metadata field : careful (doubled_metadata field).
Proof.
  intros σ metadata σ' H.
  apply doubled_metadata_Returns in H as (sub & Hsub & -> & ->).
  unfold nested_metadata in Hsub.
  destruct (field_metadata field !! "metadata") as [[| | | | |l]|];
    try apply keeps_keys_refl.
  eapply keeps_keys_insert; [done|]. set_solver.
Qed.

Lemma careful_JSONSchema_init nested_kw : careful (JSONSchema_init nested_kw).
Proof.
  unfold JSONSchema_init. apply careful_bind; [apply careful_new_dict|].
  intros r. apply careful_ret.
Qed.

Lemma careful_wrap self obj data : careful (wrap self obj data).
Proof.
  unfold wrap. destruct (nested self); [apply careful_ret|].
  apply careful_bind; [apply careful_lift|]. intros ap.
  apply careful_bind; [apply careful_dict_setitem|]. intros _. apply careful_ret.
Qed.

Lemma careful_apply_validator hs obj field schema v :
  careful_handlers hs → careful (apply_validator hs obj field schema v).
Proof.
  intros Hhs. unfold apply_validator, FIELD_VALIDATORS. cbn [lookup_class].
  destruct (Hhs schema field v obj) as (H1 & H2 & H3).
  repeat case_match; simplify_eq; try done. apply careful_ret.
Qed.

Lemma careful_resolve_nested mm field :
  careful_marshmallow mm → careful (resolve_nested mm field).
Proof.
  intros Hmm. unfold resolve_nested.
  assert (∀ c, careful (do nested_instance <-
                          instantiate mm c (field_only field) (field_exclude field);
                        ret (cls_name c, c, nested_instance))) as Hc.
  { intros c. apply careful_bind; [apply Hmm|]. intros o. apply careful_ret. }
  repeat case_match; first [apply Hc | apply careful_raise | apply careful_ret].
Qed.

(** No method of the engine takes a key away from a dict object of the
    store, whatever the depth it is given. *)
Lemma careful_engine mm hs depth :
  careful_marshmallow mm → careful_handlers hs →
  (∀ self obj, careful (dump mm hs depth self obj)) ∧
  (∀ self obj, careful (get_properties mm hs depth self obj)) ∧
  (∀ self obj field t, careful (_from_python_type mm hs depth self obj field t)) ∧
  (∀ self obj field, careful (_get_schema_for_field mm hs depth self obj field)) ∧
  (∀ self obj field, careful (_from_nested_schema mm hs depth self obj field)).
Proof.
  intros Hmm Hhs. induction depth as [|depth (IHdump & IHprops & IHtyped & IHfield & IHnested)].
  { repeat split; by intros ** σ a σ' H. }
  split; [|split; [|split; [|split]]].
  - intros self obj. cbn [dump].
    apply careful_bind; [apply IHprops|]. intros. apply careful_wrap.
  - intros self obj. cbn [get_properties].
    apply careful_for_each. intros acc [k f].
    apply careful_bind; [apply IHfield|]. intros. apply careful_ret.
  - intros self obj field t. cbn [_from_python_type].
    apply careful_bind; [apply careful_lift|]. intros table.
    apply careful_bind; [apply careful_doubled_metadata|]. intros metadata.
    destruct (issubclass _ _); [|apply careful_ret].
    apply careful_bind; [apply careful_lift|]. intros inner.
    apply careful_bind; [apply IHfield|]. intros. apply careful_ret.
  - intros self obj field. cbn [_get_schema_for_field].
    apply careful_bind.
    + destruct (field_type_mapping_method field); [apply careful_ret|].
      destruct (field_metadata field !! "_jsonschema_type_mapping"); [apply careful_ret|].
      apply careful_bind; [apply careful_lift|]. intros [t|name]; [apply IHtyped|].
      destruct (String.eqb name "_from_nested_schema");
        [apply IHnested|apply careful_raise].
    + intros schema. apply careful_for_each. intros. by apply careful_apply_validator.
  - intros self obj field. cbn [_from_nested_schema].
    apply careful_bind; [by apply careful_resolve_nested|].
    intros [[name nested_cls] nested_instance].
    apply careful_bind; [apply careful_get_dict|]. intros seen.
    apply careful_bind.
    + destruct (seen !! name); [apply careful_ret|].
      destruct (negb _); [|apply careful_ret].
      apply careful_bind; [apply careful_JSONSchema_init|]. intros wrapped_nested.
      apply careful_bind; [apply IHdump|]. intros wrapped_dumped.
      apply careful_bind; [apply careful_lift|]. intros ap.
      apply careful_bind; [apply careful_dict_setitem|]. intros _.
      apply careful_dict_update.
    + intros _. apply careful_bind; [apply careful_doubled_metadata|]. intros metadata.
      destruct (field_many field); apply careful_ret.
Qed.

(** The handlers modelled from the specification and the marshmallow of the
    examples are careful. *)
Lemma careful_fragment_dict schema : careful (validation.fragment_dict schema).
Proof.
  unfold validation.fragment_dict.
  repeat case_match;
    first [apply careful_ret | apply careful_raise | apply careful_get_dict].
Qed.

Lemma careful_validation_handlers : careful_handlers validation_handlers.
Proof.
  intros schema field v obj. cbn. split; [|split].
  - unfold validation.handle_length.
    apply careful_bind; [apply careful_fragment_dict|]. intros d.
    repeat case_match; apply careful_ret.
  - unfold validation.handle_one_of.
    apply careful_bind; [apply careful_fragment_dict|]. intros d.
    case_match; [apply careful_ret|apply careful_raise].
  - unfold validation.handle_range.
    apply careful_bind; [apply careful_fragment_dict|]. intros d. apply careful_ret.
Qed.

Lemma careful_registry ds : careful_marshmallow (registry ds).
Proof.
  intros cls only exclude. cbn.
  case_match; [apply careful_ret|apply careful_raise].
Qed.

(** ** The registry of an instance *)

Lemma root_dump_Returns mm hs depth self obj σ out σ' :
  nested self = false →
  dump mm hs depth self obj σ = Returns out σ' →
  out !! "definitions" = Some (JVal (PRef (_nested_schema_classes self))) ∧
  ∃ definitions : dict,
    σ' !! _nested_schema_classes self = Some definitions ∧
    is_Some (definitions !! cls_name (schema_cls obj)).
Proof.
  intros Hroot H. destruct depth as [|depth]; [done|]. cbn [dump] in H.
  apply bind_Returns in H as (properties & σ1 & _ & H).
  unfold wrap in H. rewrite Hroot in H.
  apply bind_Returns in H as (ap & σ2 & [_ ->]%lift_Returns & H).
  apply bind_Returns in H as (u & σ3 & (d & Hd & ->)%dict_setitem_Returns & H).
  apply ret_Returns in H as [-> ->]. split.
  - rewrite lookup_insert_ne by done. apply lookup_insert_eq.
  - eexists. split.
    + apply list_lookup_insert_eq. by eapply lookup_lt_Some.
    + rewrite lookup_insert_eq. eauto.
Qed.

(** C2, as the code has it. The registry is made when the instance is
    constructed: a new, empty dict object. A root dump files the fragment of
    its schema in it and returns a document whose [definitions] are that
    very object; nothing empties it afterwards. So on an instance that has
    already compiled a schema, the definitions of the next root dump still
    have every name the earlier one left. *)
Theorem registry_stays_with_the_instance mm hs :
  careful_marshmallow mm → careful_handlers hs →
  (∀ nested_kw σ,
     JSONSchema_init nested_kw σ
     = Returns {| _nested_schema_classes := length σ; nested := nested_kw |}
               (σ ++ [∅])%list) ∧
  (∀ depth self obj σ out σ',
     nested self = false →
     dump mm hs depth self obj σ = Returns out σ' →
     out !! "definitions" = Some (JVal (PRef (_nested_schema_classes self))) ∧
     ∃ definitions : dict,
       σ' !! _nested_schema_classes self = Some definitions ∧
       is_Some (definitions !! cls_name (schema_cls obj))) ∧
  (∀ depth1 depth2 self obj1 obj2 σ out1 σ1 out2 σ2,
     nested self = false →
     dump mm hs depth1 self obj1 σ = Returns out1 σ1 →
     dump mm hs depth2 self obj2 σ1 = Returns out2 σ2 →
     out2 !! "definitions" = Some (JVal (PRef (_nested_schema_classes self))) ∧
     ∃ definitions1 definitions2 : dict,
       σ1 !! _nested_schema_classes self = Some definitions1 ∧
       σ2 !! _nested_schema_classes self = Some definitions2 ∧
       dom definitions1 ⊆ dom definitions2 ∧
       cls_name (schema_cls obj1) ∈ dom definitions1).
Proof.
  intros Hmm Hhs. split; [done|]. split.
  - intros. by eapply root_dump_Returns.
  - intros depth1 depth2 self obj1 obj2 σ out1 σ1 out2 σ2 Hroot H1 H2.
    pose proof (root_dump_Returns _ _ _ _ _ _ _ _ Hroot H1) as (_ & defs1 & Hd1 & Hin).
    pose proof (root_dump_Returns _ _ _ _ _ _ _ _ Hroot H2) as (Hout & _).
    destruct (careful_engine mm hs depth2 Hmm Hhs) as (Hdump & _).
    destruct (Hdump self obj2 σ1 out2 σ2 H2 _ _ Hd1) as (defs2 & Hd2 & Hsub).
    split; [done|]. exists defs1, defs2. repeat split; try done.
    by apply elem_of_dom.
Qed.

Lemma registry_stays_with_the_instance_witness :
  ∃ out1 σ1 out2 σ2,
    dump world validation_handlers 10 root0 (instance_of Pet None []) [∅] = Returns out1 σ1 ∧
    dump world validation_handlers 10 root0 (instance_of Node None []) σ1 = Returns out2 σ2 ∧
    out2 !! "definitions" = Some (JVal (PRef 0)) ∧
    ∃ definitions1 definitions2 : dict,
      σ1 !! 0 = Some definitions1 ∧
      σ2 !! 0 = Some definitions2 ∧
      dom definitions1 ⊆ dom definitions2 ∧
      "Pet" ∈ dom definitions1.
Proof.
  eexists _, _, _, _. split; [vm_compute; reflexivity|].
  split; [vm_compute; reflexivity|].
  destruct (registry_stays_with_the_instance world validation_handlers
              (careful_registry _) careful_validation_handlers) as (_ & _ & H).
  eapply (H 10 10 root0 (instance_of Pet None []) (instance_of Node None []) [∅]).
  - reflexivity.
  - vm_compute. reflexivity.
  - vm_compute. reflexivity.
Defined.

(** One compiler, made with an empty registry, dumps the schema [Pet] and
    then the schema [Node], which nests nothing but itself: the definitions
    of the second document have the entry [Pet] of the first compilation.
    A new compiler gives [Node] alone. *)
Lemma definitions_of_an_earlier_dump_are_observable :
  JSONSchema_init false [] = Returns root0 [∅] ∧
  ∃ out1 σ1 out2 σ2 definitions,
    dump world validation_handlers 10 root0 (instance_of Pet None []) [∅] = Returns out1 σ1 ∧
    dump world validation_handlers 10 root0 (instance_of Node None []) σ1 = Returns out2 σ2 ∧
    out2 !! "definitions" = Some (JVal (PRef 0)) ∧
    σ2 !! 0 = Some definitions ∧
    is_Some (definitions !! "Pet") ∧
    ∃ out σ fresh_definitions,
      compile world validation_handlers 10 (instance_of Node None []) [] = Returns out σ ∧
      out !! "definitions" = Some (JVal (PRef 0)) ∧
      σ !! 0 = Some fresh_definitions ∧
      fresh_definitions !! "Pet" = None.
Proof.
  split; [reflexivity|].
  eexists _, _, _, _, _. split; [vm_compute; reflexivity|].
  split; [vm_compute; reflexivity|].
  split; [vm_compute; reflexivity|].
  split; [vm_compute; reflexivity|].
  split; [vm_compute; eauto|].
  eexists _, _, _. split; [vm_compute; reflexivity|].
  split; [vm_compute; reflexivity|].
  split; [vm_compute; reflexivity|].
  vm_compute. reflexivity.
Qed.

(** ** The metadata of the caller *)

(** C3, at the input where the code leaves it. The field [count] has a
    description at top level and a nested [metadata] sub-mapping, the dict
    object 1 of the store. After the dump that object is another one: it has
    the description of the top level instead of its own, and a key
    [metadata] that refers to itself. *)
Theorem nested_metadata_is_updated_in_place :
  ∃ out σ',
    dump world validation_handlers 10 root0 Counter count_store = Returns out σ' ∧
    field_metadata count_field !! "metadata" = Some (PRef 1) ∧
    count_store !! 1
    = Some ({[ "description" := jstr "hidden"; "minimum" := JVal (PInt 0) ]} : dict) ∧
    σ' !! 1
    = Some ({[ "description" := jstr "a count"; "minimum" := JVal (PInt 0);
               "metadata" := JVal (PRef 1) ]} : dict).
Proof.
  eexists _, _. split; [vm_compute; reflexivity|].
  repeat split; vm_compute; reflexivity.
Qed.

(** ** Schemas that nest themselves or each other *)

(** A schema that nests itself compiles: the registry ends with the one
    entry of the schema, and the fragment of the field is the reference to
    it (here inside [items], the field being a collection). *)
Lemma self_nesting_compiles :
  ∃ out σ,
    compile world validation_handlers 4 (instance_of Node None []) [] = Returns out σ ∧
    out !! "definitions" = Some (JVal (PRef 0)) ∧
    σ !! 0
    = Some ({[ "Node" :=
                 JObj {[ "type" := jstr "object";
                         "additionalProperties" := jbool false;
                         "required" := JVal (PList [PStr "value"]);
                         "properties" :=
                           JObj {[ "children" :=
                                     JObj {[ "type" := JVal (PList [PStr "array"; PStr "null"]);
                                             "items" := JObj (reference_to "Node") ]};
                                   "value" :=
                                     JObj {[ "title" := jstr "value";
                                             "type" := jstr "number";
                                             "format" := jstr "integer" ]} ]} ]} ]} : dict).
Proof.
  eexists _, _. split; [vm_compute; reflexivity|].
  split; vm_compute; reflexivity.
Qed.

(** A schema whose only field is nested: [dump] gets as far as
    [_from_nested_schema], three calls down. *)
Lemma dump_one_nested_field mm hs depth self obj k f σ :
  sorted_items (schema_fields obj) = [(k, f)] →
  field_type_mapping_method f = None →
  field_metadata f !! "_jsonschema_type_mapping" = None →
  _get_pytype f (_get_default_mapping obj) = inr (to_method "_from_nested_schema") →
  (∀ n, depth = S (S (S n)) →
        _from_nested_schema mm hs n self obj f σ = DepthExceeded) →
  dump mm hs depth self obj σ = DepthExceeded.
Proof.
  intros Hitems Hmethod Hmd Hpy Hnested.
  destruct depth as [|[|[|n]]]; [done| done | |].
  - cbn [dump get_properties]. rewrite Hitems. done.
  - cbn [dump get_properties]. rewrite Hitems. cbn [for_each].
    do 3 apply bind_DepthExceeded.
    cbn [_get_schema_for_field]. rewrite Hmethod, Hmd, Hpy.
    apply bind_DepthExceeded. cbn [lift].
    rewrite (bind_step (ret _) _ _ _ _ eq_refl). cbv beta iota.
    rewrite String.eqb_refl. by apply Hnested.
Qed.

(** A nested field whose target has not been seen and is not the schema
    being compiled: a new compiler is made for the target, and if that one
    exceeds the depth, so does the field. *)
Lemma from_nested_schema_exceeds mm hs n self obj f σ name cls inst :
  resolve_nested mm f σ = Returns (name, cls, inst) σ →
  σ !! _nested_schema_classes self = Some ∅ →
  name ≠ cls_name (schema_cls obj) →
  dump mm hs n {| _nested_schema_classes := length σ; nested := true |} inst
       (σ ++ [∅])%list = DepthExceeded →
  _from_nested_schema mm hs (S n) self obj f σ = DepthExceeded.
Proof.
  intros Hres Hreg Hname Hdump. cbn [_from_nested_schema].
  rewrite (bind_step _ _ _ _ _ Hres).
  assert (get_dict (_nested_schema_classes self) σ = Returns ∅ σ) as Hget.
  { unfold get_dict. by rewrite Hreg. }
  rewrite (bind_step _ _ _ _ _ Hget).
  apply bind_DepthExceeded. rewrite lookup_empty.
  apply String.eqb_neq in Hname. rewrite Hname. cbn [negb].
  assert (JSONSchema_init true σ
          = Returns {| _nested_schema_classes := length σ; nested := true |}
                    (σ ++ [∅])%list) as Hinit by done.
  rewrite (bind_step _ _ _ _ _ Hinit).
  by apply bind_DepthExceeded.
Qed.

Lemma new_registry_is_empty (σ : store) : (σ ++ [∅])%list !! length σ = Some (∅ : dict).
Proof. by apply list_lookup_middle. Qed.

(** [Author] and [Book] nest each other: each compilation of the one makes
    a new compiler, with a registry of its own, for the other, so whatever
    the depth allowed, it is exceeded. *)
Lemma author_and_book_exceed hs depth :
  ∀ self σ,
    σ !! _nested_schema_classes self = Some ∅ →
    dump world hs depth self (instance_of Author None []) σ = DepthExceeded ∧
    dump world hs depth self (instance_of Book None []) σ = DepthExceeded.
Proof.
  induction (lt_wf depth) as [depth _ IH]. intros self σ Hreg. split.
  - eapply dump_one_nested_field; [by vm_compute|done|done|by vm_compute|].
    intros [|n] ->; [done|].
    eapply (from_nested_schema_exceeds _ _ _ _ _ _ _ "Book");
      [reflexivity|done|done|].
    apply IH; [lia|]. apply new_registry_is_empty.
  - eapply dump_one_nested_field; [by vm_compute|done|done|by vm_compute|].
    intros [|n] ->; [done|].
    eapply (from_nested_schema_exceeds _ _ _ _ _ _ _ "Author");
      [reflexivity|done|done|].
    apply IH; [lia|]. apply new_registry_is_empty.
Qed.

(** C1, at the input where the code leaves it. Compiling [Author], which
    nests [Book], which nests [Author], exceeds every depth: the recursion
    is not bounded. *)
Theorem mutual_nesting_exceeds_every_depth hs depth :
  compile world hs depth (instance_of Author None []) [] = DepthExceeded.
Proof.
  unfold compile.
  assert (JSONSchema_init false [] = Returns root0 [∅]) as Hinit by done.
  rewrite (bind_step _ _ _ _ _ Hinit).
  by apply author_and_book_exceed.
Qed.

(** * More of the module *)

(** ** _resolve_additional_properties, beyond the override *)

(** X1. The answer is [True] in two cases only: the override is the boolean
    [True], or there is no override and the unknown-field policy is
    "include". *)
Theorem additional_properties_true_iff cls :
  _resolve_additional_properties cls = inr (PBool true) ↔
  additional_properties (cls_Meta cls) = Some (PBool true) ∨
  (additional_properties (cls_Meta cls) = None ∧
   unknown (cls_Meta cls) = Some (PStr "include")).
Proof.
  unfold _resolve_additional_properties. split.
  - destruct (additional_properties (cls_Meta cls)) as [ap|].
    + destruct (py_eq_bool ap true || py_eq_bool ap false); [|done].
      intros [= ->]. by left.
    + destruct (unknown (cls_Meta cls)) as [u|]; [|done].
      destruct (py_eq_str u RAISE || py_eq_str u EXCLUDE); [done|].
      destruct (py_eq_str u INCLUDE) eqn:E; [|done]. intros _. right.
      split; [done|]. destruct u as [| | |s| |]; try done.
      apply String.eqb_eq in E. by rewrite E.
  - intros [->|[-> ->]]; reflexivity.
Qed.

(** X2. With no override, the unknown-field policy decides: absent, "raise"
    and "exclude" give [False], "include" gives [True], and every other
    value is refused with an UnsupportedValueError. *)
Theorem unknown_policy_decides cls :
  additional_properties (cls_Meta cls) = None →
  _resolve_additional_properties cls =
    match unknown (cls_Meta cls) with
    | None => inr (PBool false)
    | Some (PStr "raise") | Some (PStr "exclude") => inr (PBool false)
    | Some (PStr "include") => inr (PBool true)
    | Some _ => inl (UnsupportedValueError "Unknown value %s for `unknown`")
    end.
Proof. apply resolve_additional_properties_unknown. Qed.

Lemma unknown_policy_decides_witness :
  _resolve_additional_properties
    {| cls_name := "S";
       cls_Meta := {| additional_properties := None; unknown := Some (PStr "ignore") |} |}
  = inl (UnsupportedValueError "Unknown value %s for `unknown`").
Proof.
  apply (unknown_policy_decides
           {| cls_name := "S";
              cls_Meta := {| additional_properties := None;
                             unknown := Some (PStr "ignore") |} |}).
  reflexivity.
Defined.

(** ** _get_pytype *)

(** X3. [_get_pytype] raises UnsupportedValueError exactly when the class of
    the field descends from no class of the mapping; when it answers, the
    answer is the target of the first entry the class descends from. *)
Theorem get_pytype_answers field mapping :
  (_get_pytype field mapping = inl (UnsupportedValueError "unsupported field type %s") ↔
   ∀ entry, entry ∈ mapping → issubclass (field_class field) entry.1 = false) ∧
  (∀ t, _get_pytype field mapping = inr t →
        ∃ before map_class after,
          mapping = (before ++ (map_class, t) :: after)%list ∧
          issubclass (field_class field) map_class = true ∧
          ∀ entry, entry ∈ before → issubclass (field_class field) entry.1 = false).
Proof.
  induction mapping as [|[c t'] mapping [IHfail IHok]]; cbn.
  - split.
    + split; [|done]. intros _ entry Hin. by apply not_elem_of_nil in Hin.
    + done.
  - destruct (issubclass (field_class field) c) eqn:E.
    + split.
      * split; [done|]. intros H.
        specialize (H (c, t') (list_elem_of_here _ _)). cbn in H. congruence.
      * intros t [= ->]. exists [], c, mapping. repeat split; [done|].
        intros entry Hin. by apply not_elem_of_nil in Hin.
    + split.
      * rewrite IHfail. split.
        -- intros H entry [->|Hin]%elem_of_cons; [done|by apply H].
        -- intros H entry Hin. apply H. by apply list_elem_of_further.
      * intros t (before & map_class & after & -> & Hc & Hbefore)%IHok.
        exists ((c, t') :: before), map_class, after. repeat split; [done|].
        intros entry [->|Hin]%elem_of_cons; [done|by apply Hbefore].
Qed.

(** ** No partial output *)

Lemma for_each_Returns_each {A B} (f : B → A → M B) xs acc σ out σ' x :
  for_each f xs acc σ = Returns out σ' →
  x ∈ xs →
  ∃ acc1 σ1 acc2 σ2, f acc1 x σ1 = Returns acc2 σ2.
Proof.
  revert acc σ. induction xs as [|y xs IH]; intros acc σ H Hin.
  - by apply not_elem_of_nil in Hin.
  - cbn in H. apply bind_Returns in H as (acc' & σ1 & Hy & H).
    apply elem_of_cons in Hin as [->|Hin]; [by eauto|by eapply IH].
Qed.

(** A field without a fragment of its own whose class the mapping does not
    know never gets a fragment: the call raises, or stops at depth 0. *)
Lemma unsupported_field_never_returns mm hs depth self obj field σ :
  field_type_mapping_method field = None →
  field_metadata field !! "_jsonschema_type_mapping" = None →
  (∀ entry, entry ∈ _get_default_mapping obj →
            issubclass (field_class field) entry.1 = false) →
  _get_schema_for_field mm hs depth self obj field σ
  = match depth with
    | 0 => DepthExceeded
    | S _ => Raises (UnsupportedValueError "unsupported field type %s")
    end.
Proof.
  intros Hmethod Hmd Hno. destruct depth as [|depth]; [done|].
  cbn [_get_schema_for_field]. rewrite Hmethod, Hmd.
  apply (get_pytype_answers field (_get_default_mapping obj)) in Hno.
  by rewrite Hno.
Qed.

(** X4. One field that cannot be mapped is enough for [dump] to produce
    nothing: whatever the other fields, the depth and the store, no document
    comes back. *)
Theorem unsupported_field_aborts_dump mm hs depth self obj item σ :
  item ∈ schema_fields obj →
  field_type_mapping_method item.2 = None →
  field_metadata item.2 !! "_jsonschema_type_mapping" = None →
  (∀ entry, entry ∈ _get_default_mapping obj →
            issubclass (field_class item.2) entry.1 = false) →
  returns_nothing (dump mm hs depth self obj σ).
Proof.
  intros Hin Hmethod Hmd Hno. unfold returns_nothing.
  destruct (dump mm hs depth self obj σ) as [out σ'| |] eqn:H; [|done|done].
  destruct depth as [|[|depth]]; [done| |].
  - cbn [dump get_properties] in H. by apply bind_Returns in H as (? & ? & ? & _).
  - cbn [dump get_properties] in H.
    apply bind_Returns in H as (properties & σ1 & H & _).
    assert (item ∈ sorted_items (schema_fields obj)) as Hin'
      by by rewrite sorted_items_Permutation.
    destruct (for_each_Returns_each _ _ _ _ _ _ _ H Hin')
      as (acc1 & σa & acc2 & σb & Hf).
    destruct item as [k f]. cbn [snd] in *. cbv beta iota in Hf.
    apply bind_Returns in Hf as (schema & σc & Hf & _).
    pose proof (unsupported_field_never_returns mm hs depth self obj f σa
                  Hmethod Hmd Hno) as Hun.
    assert (Returns schema σc
            = match depth with
              | 0 => DepthExceeded
              | S _ => Raises (UnsupportedValueError "unsupported field type %s")
              end) as Habs by (rewrite <- Hun; symmetry; exact Hf).
    by destruct depth.
Qed.

(** A field class marshmallow does not have. *)
Lemma unsupported_field_aborts_dump_witness :
  let odd := a_field (marshmallow_class "Odd" []) "odd" in
  let obj := SchemaObj (plain_class "Box")
               [("name", String_field "name"); ("odd", odd)] Schema_TYPE_MAPPING in
  returns_nothing (dump world validation_handlers 10 root0 obj [∅]).
Proof.
  intros odd obj.
  apply (unsupported_field_aborts_dump world validation_handlers 10 root0 obj ("odd", odd)).
  - apply list_elem_of_further, list_elem_of_here.
  - reflexivity.
  - reflexivity.
  - intros entry Hin. vm_compute in Hin.
    repeat (apply elem_of_cons in Hin as [->|Hin]; [reflexivity|]).
    by apply not_elem_of_nil in Hin.
Defined.

(** ** dump, get_properties and wrap *)

(** What a successful [dump] has done: the properties, then [wrap]. *)
Lemma dump_Returns mm hs depth self obj σ out σ' :
  dump mm hs depth self obj σ = Returns out σ' →
  ∃ depth' properties σ1,
    depth = S depth' ∧
    get_properties mm hs depth' self obj σ = Returns properties σ1 ∧
    wrap self obj (serialize properties (get_required obj)) σ1 = Returns out σ'.
Proof.
  destruct depth as [|depth]; [done|]. cbn [dump]. intros H.
  apply bind_Returns in H as (properties & σ1 & Hp & H). by eauto 10.
Qed.

Lemma properties_loop_keys (resolve : field → M json)
    (items : list (string * field)) (acc : dict) σ out σ' :
  for_each (λ (properties : dict) '(_, field),
              do schema <- resolve field;
              ret (<[field_name field := schema]> properties)) items acc σ
  = Returns out σ' →
  ∀ name, is_Some (out !! name) ↔
          is_Some (acc !! name) ∨ ∃ item, item ∈ items ∧ field_name item.2 = name.
Proof.
  revert acc σ. induction items as [|[k f] items IH]; intros acc σ H name.
  - apply ret_Returns in H as [-> ->]. split; [by left|].
    intros [?|(item & Hin & _)]; [done|]. by apply not_elem_of_nil in Hin.
  - cbn [for_each] in H. apply bind_Returns in H as (acc' & σ1 & Hf & H).
    apply bind_Returns in Hf as (schema & σ2 & _ & [-> ->]%ret_Returns).
    rewrite (IH _ _ H name). split.
    + intros [Hacc|(item & Hin & Hname)].
      * destruct (decide (field_name f = name)) as [Heq|Hne].
        -- right. exists (k, f). split; [apply list_elem_of_here|done].
        -- left. by rewrite lookup_insert_ne in Hacc.
      * right. exists item. split; [by apply list_elem_of_further|done].
    + intros [Hacc|(item & [->|Hin]%elem_of_cons & Hname)].
      * left. destruct (decide (field_name f = name)) as [->|Hne].
        -- rewrite lookup_insert_eq. eauto.
        -- by rewrite lookup_insert_ne.
      * left. cbn in Hname. rewrite Hname, lookup_insert_eq. eauto.
      * right. eauto.
Qed.

(** X5. The [properties] of a compiled schema have one key for the name of
    each field of the schema, and no other key. *)
Theorem properties_keys mm hs depth self obj σ out σ' :
  dump mm hs depth self obj σ = Returns out σ' →
  ∃ fragment properties : dict,
    compiled_as self obj out σ' fragment ∧
    fragment !! "properties" = Some (JObj properties) ∧
    ∀ name, is_Some (properties !! name) ↔
            ∃ item, item ∈ schema_fields obj ∧ field_name item.2 = name.
Proof.
  intros H. pose proof H as (properties' & fragment & Hc & _ & Hp & _)%dump_fragment.
  apply dump_Returns in H as (depth' & properties & σ1 & -> & Hprops & Hwrap).
  exists fragment, properties'. split; [done|]. split; [done|].
  assert (properties' = properties) as ->.
  { unfold compiled_as, wrap in *. destruct (nested self).
    - apply ret_Returns in Hwrap as [-> ->]. subst fragment.
      destruct (get_required obj); cbn in Hp; simplify_map_eq; done.
    - destruct Hc as (definitions & Hd & Hname).
      apply bind_Returns in Hwrap as (ap & σ2 & [_ ->]%lift_Returns & Hwrap).
      apply bind_Returns in Hwrap as (u & σ3 & (d & Hd' & ->)%dict_setitem_Returns & Hwrap).
      apply ret_Returns in Hwrap as [-> ->].
      rewrite list_lookup_insert_eq in Hd by by eapply lookup_lt_Some.
      injection Hd as <-. rewrite lookup_insert_eq in Hname.
      injection Hname as <-.
      destruct (get_required obj); cbn in Hp; simplify_map_eq; done. }
  destruct depth' as [|depth']; [done|]. cbn [get_properties] in Hprops.
  intros name. rewrite (properties_loop_keys _ _ _ _ _ _ Hprops name).
  rewrite lookup_empty. split.
  - intros [[? ?]|(item & Hin & Hname)]; [done|].
    exists item. split; [|done]. by rewrite <- sorted_items_Permutation.
  - intros (item & Hin & Hname). right.
    exists item. split; [|done]. by rewrite sorted_items_Permutation.
Qed.

Lemma properties_keys_witness :
  let obj := instance_of Person None [] in
  ∃ out σ',
    dump world validation_handlers 10 root0 obj [∅] = Returns out σ' ∧
    ∃ fragment properties : dict,
      compiled_as root0 obj out σ' fragment ∧
      fragment !! "properties" = Some (JObj properties) ∧
      ∀ name, is_Some (properties !! name) ↔
              ∃ item, item ∈ schema_fields obj ∧ field_name item.2 = name.
Proof.
  intros obj. eexists _, _. split.
  - vm_compute. reflexivity.
  - apply (properties_keys world validation_handlers 10 root0 obj [∅]).
    vm_compute. reflexivity.
Defined.

(** X6. A nested compiler returns the bare fragment: [properties], [type]
    and, if a field is required, [required]; it has no envelope and no
    [additionalProperties], and [wrap] leaves the store as the properties
    left it. *)
Theorem nested_dump_is_bare mm hs depth self obj σ out σ' :
  nested self = true →
  dump mm hs depth self obj σ = Returns out σ' →
  ∃ depth' properties,
    depth = S depth' ∧
    get_properties mm hs depth' self obj σ = Returns properties σ' ∧
    out = serialize properties (get_required obj) ∧
    ∀ key, is_Some (out !! key) →
           key = "properties" ∨ key = "type" ∨
           (key = "required" ∧ is_Some (get_required obj)).
Proof.
  intros Hnested H.
  apply dump_Returns in H as (depth' & properties & σ1 & -> & Hprops & Hwrap).
  unfold wrap in Hwrap. rewrite Hnested in Hwrap.
  apply ret_Returns in Hwrap as [-> ->].
  exists depth', properties. repeat split; try done.
  intros key [v Hv]. unfold serialize in Hv.
  destruct (get_required obj) as [names|].
  - destruct (decide (key = "required")) as [->|?]; [by eauto|].
    destruct (decide (key = "type")) as [->|?]; [by eauto|].
    destruct (decide (key = "properties")) as [->|?]; [by eauto|].
    by rewrite !lookup_insert_ne, lookup_empty in Hv.
  - destruct (decide (key = "type")) as [->|?]; [by eauto|].
    destruct (decide (key = "properties")) as [->|?]; [by eauto|].
    by rewrite !lookup_insert_ne, lookup_empty in Hv.
Qed.

Lemma nested_dump_is_bare_witness :
  let self := {| _nested_schema_classes := 0; nested := true |} in
  let obj := instance_of Pet None [] in
  ∃ out σ',
    dump world validation_handlers 10 self obj [∅] = Returns out σ' ∧
    ∃ depth' properties,
      10 = S depth' ∧
      get_properties world validation_handlers depth' self obj [∅] = Returns properties σ' ∧
      out = serialize properties (get_required obj) ∧
      ∀ key, is_Some (out !! key) →
             key = "properties" ∨ key = "type" ∨
             (key = "required" ∧ is_Some (get_required obj)).
Proof.
  intros self obj. eexists _, _. split.
  - vm_compute. reflexivity.
  - apply (nested_dump_is_bare world validation_handlers 10 self obj [∅]).
    + reflexivity.
    + vm_compute. reflexivity.
Defined.

(** X7. A root compiler returns the envelope and nothing else: [$schema],
    [definitions], which is its registry, and [$ref] to the entry of the
    schema; that entry is the bare fragment with the [additionalProperties]
    that [_resolve_additional_properties] gives for the class, and the other
    entries of the registry are as the properties left them. *)
Theorem root_dump_is_envelope mm hs depth self obj σ out σ' :
  nested self = false →
  dump mm hs depth self obj σ = Returns out σ' →
  ∃ depth' properties σ1 ap (definitions : dict),
    depth = S depth' ∧
    get_properties mm hs depth' self obj σ = Returns properties σ1 ∧
    _resolve_additional_properties (schema_cls obj) = inr ap ∧
    σ1 !! _nested_schema_classes self = Some definitions ∧
    σ' = <[_nested_schema_classes self :=
             <[cls_name (schema_cls obj) :=
                 JObj (<["additionalProperties" := JVal ap]>
                       (serialize properties (get_required obj)))]> definitions]> σ1 ∧
    out = {[ "$schema" := jstr "http://json-schema.org/draft-07/schema#";
             "definitions" := JVal (PRef (_nested_schema_classes self));
             "$ref" := jstr ("#/definitions/" ++ cls_name (schema_cls obj)) ]}.
Proof.
  intros Hroot H.
  apply dump_Returns in H as (depth' & properties & σ1 & -> & Hprops & Hwrap).
  unfold wrap in Hwrap. rewrite Hroot in Hwrap.
  apply bind_Returns in Hwrap as (ap & σ2 & [Hap ->]%lift_Returns & Hwrap).
  apply bind_Returns in Hwrap as (u & σ3 & (d & Hd & ->)%dict_setitem_Returns & Hwrap).
  apply ret_Returns in Hwrap as [-> ->].
  exists depth', properties, σ1, ap, d. by repeat split.
Qed.

Lemma root_dump_is_envelope_witness :
  let obj := instance_of Pet None [] in
  ∃ out σ',
    dump world validation_handlers 10 root0 obj [∅] = Returns out σ' ∧
    ∃ depth' properties σ1 ap (definitions : dict),
      10 = S depth' ∧
      get_properties world validation_handlers depth' root0 obj [∅]
      = Returns properties σ1 ∧
      _resolve_additional_properties (schema_cls obj) = inr ap ∧
      σ1 !! 0 = Some definitions ∧
      σ' = <[0 := <["Pet" := JObj (<["additionalProperties" := JVal ap]>
                                   (serialize properties (get_required obj)))]>
                   definitions]> σ1 ∧
      out = {[ "$schema" := jstr "http://json-schema.org/draft-07/schema#";
               "definitions" := JVal (PRef 0);
               "$ref" := jstr "#/definitions/Pet" ]}.
Proof.
  intros obj. eexists _, _. split.
  - vm_compute. reflexivity.
  - apply (root_dump_is_envelope world validation_handlers 10 root0 obj [∅]).
    + reflexivity.
    + vm_compute. reflexivity.
Defined.

(** X8. A root compiler whose schema class has a configuration that
    [_resolve_additional_properties] refuses returns no document, and a
    nested compiler does not look at the configuration at all. *)
Theorem bad_configuration_aborts_root_dump mm hs depth self obj σ e :
  _resolve_additional_properties (schema_cls obj) = inl e →
  (nested self = false → returns_nothing (dump mm hs depth self obj σ)) ∧
  (nested self = true →
   ∀ depth' properties σ1,
     depth = S depth' →
     get_properties mm hs depth' self obj σ = Returns properties σ1 →
     dump mm hs depth self obj σ
     = Returns (serialize properties (get_required obj)) σ1).
Proof.
  intros He. split.
  - intros Hroot. unfold returns_nothing.
    destruct (dump mm hs depth self obj σ) as [out σ'| |] eqn:H; [|done|done].
    apply (root_dump_is_envelope _ _ _ _ _ _ _ _ Hroot) in H
      as (? & ? & ? & ap & ? & _ & _ & Hap & _). congruence.
  - intros Hnested depth' properties σ1 -> Hprops. cbn [dump].
    rewrite (bind_step _ _ _ _ _ Hprops). unfold wrap. by rewrite Hnested.
Qed.

Lemma bad_configuration_aborts_root_dump_witness :
  let cls := {| cls_name := "Odd";
                cls_Meta := {| additional_properties := Some (PStr "yes");
                               unknown := None |} |} in
  let obj := SchemaObj cls [("name", String_field "name")] Schema_TYPE_MAPPING in
  returns_nothing (dump world validation_handlers 10 root0 obj [∅]).
Proof.
  intros cls obj.
  destruct (bad_configuration_aborts_root_dump world validation_handlers 10 root0 obj [∅]
              (UnsupportedValueError
                 "`additional_properties` must be either True or False")) as [H _].
  - reflexivity.
  - apply H. reflexivity.
Defined.

(** ** More on typed fields *)

Lemma TYPE_MAP_keys t table key :
  TYPE_MAP t = Some table →
  key ≠ "type" → key ≠ "format" →
  (list_to_map table : dict) !! key = None.
Proof.
  intros Ht Htype Hformat.
  destruct t; cbn in Ht; try done; injection Ht as <-; cbn;
    by rewrite ?lookup_insert_ne, lookup_empty.
Qed.

Lemma TYPE_MAP_type t table :
  TYPE_MAP t = Some table → is_Some ((list_to_map table : dict) !! "type").
Proof.
  intros Ht. destruct t; cbn in Ht; try done; injection Ht as <-; cbn;
    rewrite lookup_insert_eq; eauto.
Qed.

(** X9. In the fragment of a field resolved through the type table: the key
    [metadata] never appears; unless the effective metadata have the key,
    [title] is the attribute of the field, or its name when it has none, and
    [type] is the one of the table entry, which always has one; and [items]
    is there only for a list field or from the metadata. *)
Theorem typed_fragment_keys mm hs depth self obj field t σ frag σ' :
  _from_python_type mm hs depth self obj field t σ = Returns frag σ' →
  ∃ table metadata σ1 (json_schema : dict),
    TYPE_MAP t = Some table ∧
    doubled_metadata field σ = Returns metadata σ1 ∧
    frag = JObj json_schema ∧
    json_schema !! "metadata" = None ∧
    (metadata !! "title" = None →
     json_schema !! "title" = Some (jstr (attribute_or_name field))) ∧
    (metadata !! "type" = None →
     json_schema !! "type" = (list_to_map table : dict) !! "type" ∧
     is_Some (json_schema !! "type")) ∧
    (issubclass (field_class field) fields_List = false →
     json_schema !! "items" = metadata !! "items").
Proof.
  intros H.
  apply from_python_type_Returns in H
    as (table & metadata & σ1 & items & Ht & Hmd & Hitems & ->).
  exists table, metadata, σ1. eexists.
  split; [done|]. split; [done|]. split; [done|].
  pose proof (TYPE_MAP_NoDup _ _ Ht) as Hnd.
  rewrite !lookup_post_processed by done. unfold post_processed.
  split; [|split; [|split]].
  - rewrite (TYPE_MAP_keys _ _ "metadata" Ht) by done. by destruct items.
  - intros ->. rewrite (TYPE_MAP_keys _ _ "title" Ht) by done. by destruct items.
  - intros ->. destruct (TYPE_MAP_type _ _ Ht) as [v Hv]. rewrite Hv.
    split; [by destruct items|]. destruct items; cbn; eauto.
  - intros Hlist. rewrite Hlist in Hitems. destruct Hitems as [-> _].
    rewrite (TYPE_MAP_keys _ _ "items" Ht) by done. cbn.
    by destruct (metadata !! "items").
Qed.

Lemma typed_fragment_keys_witness :
  let obj := instance_of Pet None [] in
  ∃ frag σ',
    _from_python_type world validation_handlers 9 root0 obj count_field py_int count_store
    = Returns frag σ' ∧
    ∃ table metadata σ1 (json_schema : dict),
      TYPE_MAP py_int = Some table ∧
      doubled_metadata count_field count_store = Returns metadata σ1 ∧
      frag = JObj json_schema ∧
      json_schema !! "metadata" = None ∧
      (metadata !! "title" = None →
       json_schema !! "title" = Some (jstr (attribute_or_name count_field))) ∧
      (metadata !! "type" = None →
       json_schema !! "type" = (list_to_map table : dict) !! "type" ∧
       is_Some (json_schema !! "type")) ∧
      (issubclass (field_class count_field) fields_List = false →
       json_schema !! "items" = metadata !! "items").
Proof.
  intros obj. eexists _, _. split.
  - vm_compute. reflexivity.
  - eapply (typed_fragment_keys world validation_handlers 9 root0 obj count_field
              py_int count_store).
    vm_compute. reflexivity.
Defined.

(** A python type that [TYPE_MAP] does not have (one that only the
    [TYPE_MAPPING] of the schema knows) has no fragment: [_from_python_type]
    raises the KeyError of the lookup, before it touches the store. *)
Lemma unknown_python_type_raises mm hs depth self obj field name σ :
  _from_python_type mm hs (S depth) self obj field (py_other name) σ
  = Raises (KeyError "TYPE_MAP").
Proof. reflexivity. Qed.

(** ** More on the metadata *)

(** X10. Doubling the metadata a second time changes nothing more: it gives
    the same effective metadata and leaves the store as the first time
    left it. *)
Theorem doubled_metadata_twice field σ metadata σ1 :
  doubled_metadata field σ = Returns metadata σ1 →
  doubled_metadata field σ1 = Returns metadata σ1.
Proof.
  intros H. pose proof H as (sub & Hsub & -> & Hσ)%doubled_metadata_Returns.
  unfold doubled_metadata, nested_metadata in *.
  destruct (field_metadata field !! "metadata") as [[| | | | |l]|]; try done.
  - subst σ1. unfold bind, get_dict, set_dict.
    assert (l < length σ) as Hl by by eapply lookup_lt_Some.
    rewrite !list_lookup_insert_eq by done.
    assert ((JVal <$> field_metadata field) ∪ ((JVal <$> field_metadata field) ∪ sub)
            = (JVal <$> field_metadata field) ∪ sub) as ->.
    { by rewrite (assoc_L (∪)), (idemp_L (∪)). }
    by rewrite list_insert_insert_eq.
  - by subst.
Qed.

Lemma doubled_metadata_twice_witness :
  ∃ metadata σ1,
    doubled_metadata count_field count_store = Returns metadata σ1 ∧
    doubled_metadata count_field σ1 = Returns metadata σ1.
Proof.
  eexists _, _. split.
  - vm_compute. reflexivity.
  - apply (doubled_metadata_twice count_field count_store). vm_compute. reflexivity.
Defined.

(** X11. A field whose metadata have no key [metadata] is left alone: for
    such a field that is no list, [_from_python_type] returns with the store
    it was given; and a value under [metadata] that is no dict object is
    refused with an AttributeError. *)
Theorem no_nested_metadata_no_update mm hs depth self obj field t σ :
  (field_metadata field !! "metadata" = None →
   issubclass (field_class field) fields_List = false →
   ∀ frag σ',
     _from_python_type mm hs depth self obj field t σ = Returns frag σ' → σ' = σ) ∧
  (∀ v, field_metadata field !! "metadata" = Some v →
        (∀ l, v ≠ PRef l) →
        doubled_metadata field σ = Raises (AttributeError "update")).
Proof.
  split.
  - intros Hmd Hlist frag σ' H.
    apply from_python_type_Returns in H
      as (table & metadata & σ1 & items & Ht & H & Hitems & _).
    rewrite Hlist in Hitems. destruct Hitems as [_ ->].
    apply doubled_metadata_Returns in H as (_ & _ & _ & ->). by rewrite Hmd.
  - intros v Hv Hnot. unfold doubled_metadata. rewrite Hv.
    destruct v as [| | | | |l]; try done. by destruct (Hnot l).
Qed.

Lemma no_nested_metadata_no_update_witness :
  let obj := instance_of Pet None [] in
  let f := set_metadata {[ "description" := PStr "a name" ]} (String_field "name") in
  ∃ frag σ',
    _from_python_type world validation_handlers 9 root0 obj f text_type count_store
    = Returns frag σ' ∧ σ' = count_store.
Proof.
  intros obj f. eexists _, _. split.
  - vm_compute. reflexivity.
  - destruct (no_nested_metadata_no_update world validation_handlers 9 root0 obj f
                text_type count_store) as [H _].
    eapply H; [reflexivity|reflexivity|vm_compute; reflexivity].
Defined.

(** ** More on nested fields *)

(** X12. A target that is already in the registry of the compiler, or that
    has the name of the schema being compiled, is not compiled again: no
    compiler is made, the registry is not written, and one level of depth is
    enough whatever the target nests. The field gets its reference all the
    same. *)
Theorem seen_or_self_is_not_recompiled mm hs depth self obj field σ
    name nested_cls nested_instance σ1 (seen : dict) :
  resolve_nested mm field σ = Returns (name, nested_cls, nested_instance) σ1 →
  σ1 !! _nested_schema_classes self = Some seen →
  is_Some (seen !! name) ∨ name = cls_name (schema_cls obj) →
  _from_nested_schema mm hs (S depth) self obj field σ
  = reference_fragment field name σ1.
Proof.
  intros Hres Hseen Hguard. cbn [_from_nested_schema].
  rewrite (bind_step _ _ _ _ _ Hres).
  assert (get_dict (_nested_schema_classes self) σ1 = Returns seen σ1) as Hget.
  { unfold get_dict. by rewrite Hseen. }
  rewrite (bind_step _ _ _ _ _ Hget).
  assert (match seen !! name with
          | Some _ => true
          | None => String.eqb name (cls_name (schema_cls obj))
          end = true) as Hskip.
  { destruct Hguard as [[v ->]| ->]; [done|].
    destruct (seen !! _); [done|apply String.eqb_refl]. }
  unfold reference_fragment, reference_to.
  destruct (seen !! name) as [v|].
  - by rewrite (bind_step (ret ()) _ _ _ _ eq_refl).
  - rewrite Hskip. cbn [negb]. by rewrite (bind_step (ret ()) _ _ _ _ eq_refl).
Qed.

Lemma seen_or_self_is_not_recompiled_witness :
  let obj := instance_of Node None [] in
  let children := Nested_field "children" (NestedName "Node") true in
  _from_nested_schema world validation_handlers 1 root0 obj children [∅]
  = reference_fragment children "Node" [∅].
Proof.
  intros obj children.
  eapply (seen_or_self_is_not_recompiled world validation_handlers 0 root0 obj
            children [∅] "Node").
  - reflexivity.
  - reflexivity.
  - by right.
Defined.

(** X13. When a nested field has got its fragment, the target is in the
    registry of the compiler, unless it is the schema being compiled itself
    (which [wrap] files at the end). *)
Theorem nested_target_is_registered mm hs depth self obj field σ frag σ' :
  _from_nested_schema mm hs depth self obj field σ = Returns frag σ' →
  ∃ name nested_cls nested_instance σ1,
    resolve_nested mm field σ = Returns (name, nested_cls, nested_instance) σ1 ∧
    (name = cls_name (schema_cls obj) ∨
     ∃ definitions : dict,
       σ' !! _nested_schema_classes self = Some definitions ∧
       is_Some (definitions !! name)).
Proof.
  destruct depth as [|depth]; [done|]. cbn [_from_nested_schema]. intros H.
  apply bind_Returns in H as ([[name nested_cls] nested_instance] & σ1 & Hres & H).
  exists name, nested_cls, nested_instance, σ1. split; [done|].
  apply bind_Returns in H as (seen & σ1' & [Hseen ->]%get_dict_Returns & H).
  apply bind_Returns in H as (u & σ2 & Hguard & H).
  assert (name = cls_name (schema_cls obj) ∨
          ∃ definitions : dict,
            σ2 !! _nested_schema_classes self = Some definitions ∧
            is_Some (definitions !! name)) as [->|(d2 & Hd2 & Hin)]; [|by left|].
  { destruct (seen !! name) as [v|] eqn:Hname.
    - apply ret_Returns in Hguard as [_ ->]. right. exists seen. by eauto.
    - destruct (String.eqb_spec name (cls_name (schema_cls obj))) as [->|Hne];
        [by left|right]. cbn [negb] in Hguard.
      apply bind_Returns in Hguard as (wrapped_nested & σa & _ & Hguard).
      apply bind_Returns in Hguard as (wrapped_dumped & σb & _ & Hguard).
      apply bind_Returns in Hguard as (ap & σc & [_ ->]%lift_Returns & Hguard).
      apply bind_Returns in Hguard
        as (u1 & σd & (d & Hd & ->)%dict_setitem_Returns & Hguard).
      apply dict_update_Returns in Hguard as (d' & d2 & Hd' & Hd2 & ->).
      assert (_nested_schema_classes self < length σb) as Hlt
        by by eapply lookup_lt_Some.
      rewrite list_lookup_insert_eq in Hd' by done. injection Hd' as <-.
      eexists. split.
      + apply list_lookup_insert_eq. by rewrite length_insert.
      + rewrite lookup_union, lookup_insert_eq.
        destruct (d2 !! name); cbn; eauto. }
  right.
  apply bind_Returns in H as (metadata & σ3 & Hmd & H).
  assert (σ' = σ3) as -> by (destruct (field_many field); by apply ret_Returns in H as [_ ->]).
  destruct (careful_doubled_metadata field _ _ _ Hmd _ _ Hd2) as (d3 & Hd3 & Hsub).
  exists d3. split; [done|]. apply elem_of_dom. apply elem_of_dom in Hin. set_solver.
Qed.

Lemma nested_target_is_registered_witness :
  let obj := instance_of Person None [] in
  let pets := Nested_field "pets" (NestedName "Pet") true in
  ∃ frag σ',
    _from_nested_schema world validation_handlers 10 root0 obj pets [∅] = Returns frag σ' ∧
    ∃ name nested_cls nested_instance σ1,
      resolve_nested world pets [∅] = Returns (name, nested_cls, nested_instance) σ1 ∧
      (name = cls_name (schema_cls obj) ∨
       ∃ definitions : dict,
         σ' !! 0 = Some definitions ∧ is_Some (definitions !! name)).
Proof.
  intros obj pets. eexists _, _. split.
  - vm_compute. reflexivity.
  - eapply (nested_target_is_registered world validation_handlers 10 root0 obj pets [∅]).
    vm_compute. reflexivity.
Defined.

(** X14. A nested field given by a name that the class registry does not
    know raises the RegistryError of the lookup; no reference is made for
    it. *)
Theorem unknown_nested_name_raises mm hs depth self obj field classname σ :
  field_nested field = Some (NestedName classname) →
  get_class mm classname = None →
  _from_nested_schema mm hs (S depth) self obj field σ = Raises (RegistryError classname).
Proof.
  intros Hnested Hclass. cbn [_from_nested_schema].
  unfold bind, resolve_nested. by rewrite Hnested, Hclass.
Qed.

Lemma unknown_nested_name_raises_witness :
  _from_nested_schema world validation_handlers 1 root0 (instance_of Pet None [])
    (Nested_field "owner" (NestedName "Owner") false) [∅]
  = Raises (RegistryError "Owner").
Proof.
  apply (unknown_nested_name_raises world validation_handlers 0 root0
           (instance_of Pet None []) (Nested_field "owner" (NestedName "Owner") false)
           "Owner" [∅]); reflexivity.
Defined.

(** ** The mapping of the field classes *)

Lemma same_class_trans_eq c c' d :
  same_class c' c = true → same_class c' d = same_class c d.
Proof. unfold same_class. by intros ->%String.eqb_eq. Qed.

(** Reading a mapping after [mapping[c] = t]. *)
Lemma lookup_class_mapping_set (m : list (pyclass * target)) c t d :
  lookup_class (mapping_set m c t) d
  = if same_class c d then Some t else lookup_class m d.
Proof.
  induction m as [|[c' t'] m IH]; cbn.
  - done.
  - destruct (same_class c' c) eqn:E; cbn.
    + by rewrite (same_class_trans_eq _ _ d E); destruct (same_class c d).
    + rewrite IH. destruct (same_class c' d) eqn:E'; [|done].
      destruct (same_class c d) eqn:E''; [|done].
      unfold same_class in *. apply String.eqb_eq in E', E''.
      rewrite E', E'' in E. by rewrite String.eqb_refl in E.
Qed.

(** X15. Whatever the [TYPE_MAPPING] of the schema says, the mapping of
    [_get_default_mapping] has the seven entries the method adds, with the
    targets it gives them: Email and Url are text, Dict a dict, List a list,
    DateTime a datetime, Number a Decimal, and Nested goes to
    [_from_nested_schema]. *)
Theorem default_mapping_entries (obj : schema) :
  lookup_class (_get_default_mapping obj) fields_Email = Some (to_type text_type) ∧
  lookup_class (_get_default_mapping obj) fields_Dict = Some (to_type py_dict) ∧
  lookup_class (_get_default_mapping obj) fields_Url = Some (to_type text_type) ∧
  lookup_class (_get_default_mapping obj) fields_List = Some (to_type py_list) ∧
  lookup_class (_get_default_mapping obj) fields_DateTime = Some (to_type py_datetime) ∧
  lookup_class (_get_default_mapping obj) fields_Nested
  = Some (to_method "_from_nested_schema") ∧
  lookup_class (_get_default_mapping obj) fields_Number = Some (to_type py_Decimal).
Proof.
  unfold _get_default_mapping. cbn [foldl].
  generalize (foldl (λ m '(k, v), mapping_set m v (to_type k)) [] (TYPE_MAPPING obj)).
  intros m. repeat split; by rewrite !lookup_class_mapping_set.
Qed.

(** ** Nothing is taken away *)

(** X16. A dump takes no key away from any dict object of the store, be it
    the registry of a compiler or the nested metadata of a field, as long as
    the handlers and the construction of instances take none away. *)
Theorem dump_keeps_keys mm hs depth self obj σ out σ' :
  careful_marshmallow mm → careful_handlers hs →
  dump mm hs depth self obj σ = Returns out σ' →
  ∀ l (d : dict), σ !! l = Some d →
                  ∃ d' : dict, σ' !! l = Some d' ∧ dom d ⊆ dom d'.
Proof.
  intros Hmm Hhs H. destruct (careful_engine mm hs depth Hmm Hhs) as (Hdump & _).
  by eapply Hdump.
Qed.

Lemma dump_keeps_keys_witness :
  ∃ out σ',
    dump world validation_handlers 10 root0 Counter count_store = Returns out σ' ∧
    ∀ l (d : dict), count_store !! l = Some d →
                    ∃ d' : dict, σ' !! l = Some d' ∧ dom d ⊆ dom d'.
Proof.
  eexists _, _. split.
  - vm_compute. reflexivity.
  - eapply (dump_keeps_keys world validation_handlers 10 root0 Counter count_store).
    + apply careful_registry.
    + apply careful_validation_handlers.
    + vm_compute. reflexivity.
Defined.

(** ** A single nested object *)

(** X17. The fragment of a nested field without the [many] flag is the
    reference itself, with the metadata of the field copied into it; for a
    field without metadata it is exactly [type: object] and the [$ref] to
    the definition of the target, and the store is the one the compilation
    of the target left. *)
Theorem single_nested_is_reference mm hs depth self obj field σ frag σ' :
  _from_nested_schema mm hs depth self obj field σ = Returns frag σ' →
  field_many field = false →
  ∃ name nested_cls nested_instance σ1 σ2 metadata,
    resolve_nested mm field σ = Returns (name, nested_cls, nested_instance) σ1 ∧
    doubled_metadata field σ2 = Returns metadata σ' ∧
    frag = JObj (copy_metadata metadata (reference_to name)) ∧
    (field_metadata field = ∅ →
     σ' = σ2 ∧
     frag = JObj {[ "type" := jstr "object";
                    "$ref" := jstr ("#/definitions/" ++ name) ]}).
Proof.
  intros H Hmany.
  apply from_nested_schema_Returns in H
    as (name & nested_cls & nested_instance & σ1 & σ2 & metadata & Hres & Hmd & Hfrag).
  rewrite Hmany in Hfrag. cbn in Hfrag.
  exists name, nested_cls, nested_instance, σ1, σ2, metadata.
  split; [done|]. split; [done|]. split; [done|].
  intros Hempty. pose proof Hmd as (sub & Hsub & -> & Hσ)%doubled_metadata_Returns.
  unfold nested_metadata in Hsub. rewrite Hempty, lookup_empty in Hsub, Hσ.
  injection Hsub as <-. split; [done|]. rewrite Hfrag. f_equal.
  apply map_eq. intros key.
  rewrite lookup_copy_metadata, Hempty, fmap_empty, (left_id_L ∅ (∪)), lookup_empty.
  unfold reference_to.
  assert ((if String.eqb key "metadata" then None else None) = (None : option json))
    as -> by by destruct (String.eqb key "metadata").
  rewrite option_union_None_l.
  destruct (decide (key = "$ref")) as [->|?].
  { rewrite lookup_insert_eq, lookup_insert_ne by done.
    by rewrite lookup_singleton_eq. }
  destruct (decide (key = "type")) as [->|?].
  - rewrite lookup_insert_ne by done. by rewrite lookup_singleton_eq, lookup_insert_eq.
  - rewrite !lookup_insert_ne by done. by rewrite !lookup_singleton_ne.
Qed.

Lemma single_nested_is_reference_witness :
  let obj := instance_of Book None [] in
  let pet := Nested_field "pet" (NestedName "Pet") false in
  ∃ frag σ',
    _from_nested_schema world validation_handlers 10 root0 obj pet [∅] = Returns frag σ' ∧
    ∃ name nested_cls nested_instance σ1 σ2 metadata,
      resolve_nested world pet [∅] = Returns (name, nested_cls, nested_instance) σ1 ∧
      doubled_metadata pet σ2 = Returns metadata σ' ∧
      frag = JObj (copy_metadata metadata (reference_to name)) ∧
      (field_metadata pet = ∅ →
       σ' = σ2 ∧
       frag = JObj {[ "type" := jstr "object";
                      "$ref" := jstr ("#/definitions/" ++ name) ]}).
Proof.
  intros obj pet. eexists _, _. split.
  - vm_compute. reflexivity.
  - apply (single_nested_is_reference world validation_handlers 10 root0 obj pet [∅]).
    + vm_compute. reflexivity.
    + reflexivity.
Defined.
